(** * Xelvin performance dashboard: calendar bucketing, aggregation, ranking,
      PIN gate and submission flow of [src/App.jsx].

    The development embeds the logic of the single component file:
    - [JSDate]: the time-value arithmetic of ECMAScript [Date] objects that
      [isoWeek] runs on ([Date.UTC], [getUTCDay], [setUTCDate], ...);
    - [ISO8601]: the week number as the standard words it, to compare with;
    - [Dashboard]: [isoWeek], [filtered], [aggregated], [total], [ranking];
    - [Coercion]: [Number(x) || 0] on the values a form field can hold;
    - [Session]: the gate ([authorized]) and the [submit] handler;
    - [ISOString]: [toISOString], [todayStr] and the reading of date-only
      strings.

    JavaScript numbers that the program uses as counters, bucket numbers and
    time values are integers; they are modelled in [Z], which is exact for
    doubles below 2^53 in magnitude. *)

From Stdlib Require Import ZArith List Bool Lia.
From Stdlib Require Import String Ascii.
From Stdlib Require Import Permutation Sorted.
Import ListNotations.

Local Open Scope Z_scope.

(** ** Numbers

    A JavaScript number as the dashboard reads it: [NaN] or an integer. *)

Inductive number : Set :=
| NaN
| Int (z : Z).

(** Arithmetic on numbers propagates [NaN]. *)
Definition nbind (a : number) (k : Z -> number) : number :=
  match a with
  | NaN => NaN
  | Int z => k z
  end.

(** [Math.ceil(a / b)] for integers [a] and [b > 0], the quotient taken in
    the reals. *)
Definition ceil_div (a b : Z) : Z := - ((- a) / b).

(** ** Time values of ECMAScript [Date] (ECMA-262, "Time Values and Time Range") *)

Module JSDate.

Definition msPerDay : Z := 86400000.

(** [Day(t) = floor(t / msPerDay)], [TimeWithinDay(t) = t modulo msPerDay]. *)
Definition Day (t : Z) : Z := t / msPerDay.
Definition TimeWithinDay (t : Z) : Z := t mod msPerDay.

Definition DaysInYear (y : Z) : Z :=
  if negb (y mod 4 =? 0) then 365
  else if negb (y mod 100 =? 0) then 366
  else if negb (y mod 400 =? 0) then 365
  else 366.

Definition DayFromYear (y : Z) : Z :=
  365 * (y - 1970) + (y - 1969) / 4 - (y - 1901) / 100 + (y - 1601) / 400.

Definition TimeFromYear (y : Z) : Z := msPerDay * DayFromYear y.

(** ECMA-262 defines [YearFromTime(t)] as the largest integer [y] with
    [TimeFromYear(y) <= t].  [YearFromDay] computes it: the mean Gregorian
    year has 146097/400 days, and the estimate is off by at most one
    (lemma [YearFromDay_spec] below shows it meets the definition). *)
Definition YearFromDay (day : Z) : Z :=
  let y := 1970 + (day * 400) / 146097 in
  if day <? DayFromYear y then y - 1
  else if DayFromYear (y + 1) <=? day then y + 1
  else y.

Definition YearFromTime (t : Z) : Z := YearFromDay (Day t).

Definition DayWithinYear (t : Z) : Z := Day t - DayFromYear (YearFromTime t).

(** [InLeapYear(t)]: 0 or 1. *)
Definition InLeapYear (t : Z) : Z :=
  if DaysInYear (YearFromTime t) =? 365 then 0 else 1.

Definition MonthFromTime (t : Z) : Z :=
  let d := DayWithinYear t in
  let l := InLeapYear t in
  if d <? 31 then 0
  else if d <? 59 + l then 1
  else if d <? 90 + l then 2
  else if d <? 120 + l then 3
  else if d <? 151 + l then 4
  else if d <? 181 + l then 5
  else if d <? 212 + l then 6
  else if d <? 243 + l then 7
  else if d <? 273 + l then 8
  else if d <? 304 + l then 9
  else if d <? 334 + l then 10
  else 11.

Definition DateFromTime (t : Z) : Z :=
  let d := DayWithinYear t in
  let l := InLeapYear t in
  match MonthFromTime t with
  | 0 => d + 1
  | 1 => d - 30
  | 2 => d - 58 - l
  | 3 => d - 89 - l
  | 4 => d - 119 - l
  | 5 => d - 150 - l
  | 6 => d - 180 - l
  | 7 => d - 211 - l
  | 8 => d - 242 - l
  | 9 => d - 272 - l
  | 10 => d - 303 - l
  | _ => d - 333 - l
  end.

(** [WeekDay(t)]: 0 is Sunday, 4 is Thursday (1970-01-01). *)
Definition WeekDay (t : Z) : Z := (Day t + 4) mod 7.

(** Day number, within its year, of the first day of month [mn] (0..11). *)
Definition monthStart (mn leap : Z) : Z :=
  match mn with
  | 0 => 0
  | 1 => 31
  | 2 => 59 + leap
  | 3 => 90 + leap
  | 4 => 120 + leap
  | 5 => 151 + leap
  | 6 => 181 + leap
  | 7 => 212 + leap
  | 8 => 243 + leap
  | 9 => 273 + leap
  | 10 => 304 + leap
  | _ => 334 + leap
  end.

(** [MakeDay(year, month, date)]: ECMA-262 asks for a time value [t] with
    [YearFromTime(t) = ym], [MonthFromTime(t) = mn], [DateFromTime(t) = 1] and
    returns [Day(t) + dt - 1]; that [t] is the first day of month [mn] of year
    [ym] (lemma [MakeDay_first_of_month]). *)
Definition MakeDay (year month date : Z) : Z :=
  let ym := year + month / 12 in
  let mn := month mod 12 in
  let leap := if DaysInYear ym =? 365 then 0 else 1 in
  DayFromYear ym + monthStart mn leap + date - 1.

Definition MakeDate (day time : Z) : Z := day * msPerDay + time.

(** [TimeClip]: a time value beyond 8.64e15 ms from the epoch is [NaN]. *)
Definition TimeClip (t : Z) : number :=
  if Z.abs t <=? 8640000000000000 then Int t else NaN.

(** [Date.UTC(year, month, date)] on numbers: a year from 0 to 99 stands for
    1900 + year. *)
Definition UTC (year month date : Z) : number :=
  let yr := if (0 <=? year) && (year <=? 99) then 1900 + year else year in
  TimeClip (MakeDate (MakeDay yr month date) 0).

(** [Date.prototype.setUTCDate(dt)] on a valid time value. *)
Definition setUTCDate (t dt : Z) : number :=
  TimeClip (MakeDate (MakeDay (YearFromTime t) (MonthFromTime t) dt)
                     (TimeWithinDay t)).

End JSDate.

(** ** The ISO-8601 week number, as the standard defines it

    Weeks run from Monday to Sunday; week 01 of a year is the week that holds
    the year's first Thursday, which is the week that holds 4 January.  Days
    are counted from 1970-01-01, a Thursday, in the proleptic Gregorian
    calendar. *)

Module ISO8601.

(** 0 is Monday, ..., 6 is Sunday. *)
Definition weekday (day : Z) : Z := (day + 3) mod 7.

Definition monday_of (day : Z) : Z := day - weekday day.

(** The Thursday of the Monday-start week of a day. *)
Definition thursday (day : Z) : Z := monday_of day + 3.

Definition jan4 (y : Z) : Z := JSDate.DayFromYear y + 3.

(** The Monday that opens week 01 of year [y]. *)
Definition week01 (y : Z) : Z := monday_of (jan4 y).

(** The week-numbering year of a day: the year whose week 01 .. last week
    holds it. *)
Definition week_year (day : Z) : Z :=
  let y := JSDate.YearFromDay day in
  if day <? week01 y then y - 1
  else if week01 (y + 1) <=? day then y + 1
  else y.

Definition week (day : Z) : Z := (day - week01 (week_year day)) / 7 + 1.

End ISO8601.

(** ** Values of a stored document

    A field of a document read from the store is missing ([undefined]) or a
    number; the numbers of the data model are integers.  [v === n] against a
    number [n] is strict equality: it holds only between two equal numbers,
    and [NaN] equals nothing. *)

Inductive jsval : Set :=
| Undefined
| Number (n : number).

Definition strict_eq (v : jsval) (n : number) : bool :=
  match v, n with
  | Number (Int a), Int b => a =? b
  | _, _ => false
  end.

(** [v || 0] on a counter field: [undefined], [NaN] and [0] are falsy. *)
Definition or_zero (v : jsval) : Z :=
  match v with
  | Number (Int z) => z
  | _ => 0
  end.

(** A JavaScript object with string keys, as the list of its own properties
    in insertion order (the order [Object.values] follows). *)
Section Objects.

Context {A : Type}.

Fixpoint get (o : list (string * A)) (k : string) : option A :=
  match o with
  | [] => None
  | (k', v) :: o' => if String.eqb k' k then Some v else get o' k
  end.

Fixpoint set (o : list (string * A)) (k : string) (v : A) : list (string * A) :=
  match o with
  | [] => [(k, v)]
  | (k', v') :: o' =>
      if String.eqb k' k then (k', v) :: o' else (k', v') :: set o' k v
  end.

Definition fromEntries (kvs : list (string * A)) : list (string * A) :=
  fold_left (fun o kv => set o (fst kv) (snd kv)) kvs [].

Definition values (o : list (string * A)) : list A := map snd o.

End Objects.

(** ** The dashboard's derived values *)

Module Entry.
Record t : Set := make {
  name : string;
  week : jsval;
  month : jsval;
  year : jsval;
  intakes : jsval;
  interviews : jsval;
  placements : jsval;
  prospects : jsval
}.
End Entry.

Module Period.
Record t : Set := make {
  week : number;
  month : number;
  year : number
}.
End Period.

Module Totals.
Record t : Set := make {
  name : string;
  intakes : Z;
  interviews : Z;
  placements : Z;
  prospects : Z
}.
End Totals.

Module Sums.
Record t : Set := make {
  intakes : Z;
  interviews : Z;
  placements : Z;
  prospects : Z
}.
End Sums.

(** What evaluating an expression gives: a value, or a thrown error. *)
Inductive completion (A : Type) : Type :=
| Return (a : A)
| Throw (error : string).

Arguments Return {A} a.
Arguments Throw {A} error.

Module Dashboard.

Definition PINCODE : string := "8448"%string.

Definition CONSULTANTS : list string :=
  ["Marcus"; "Lisanna"; "Nick"; "Gea"; "Dion"; "Sander"; "Yde"]%string.

Section LocalTime.

(** Offset of local time from UTC, in ms, at a time value. *)
Variable LocalTZA : Z -> Z.

Definition LocalTime (t : Z) : Z := t + LocalTZA t.

(** Getters of a [Date] whose time value is [d]. *)
Definition getFullYear (d : number) : number :=
  nbind d (fun t => Int (JSDate.YearFromTime (LocalTime t))).
Definition getMonth (d : number) : number :=
  nbind d (fun t => Int (JSDate.MonthFromTime (LocalTime t))).
Definition getDate (d : number) : number :=
  nbind d (fun t => Int (JSDate.DateFromTime (LocalTime t))).
Definition getUTCFullYear (d : number) : number :=
  nbind d (fun t => Int (JSDate.YearFromTime t)).
Definition getUTCDate (d : number) : number :=
  nbind d (fun t => Int (JSDate.DateFromTime t)).
Definition getUTCDay (d : number) : number :=
  nbind d (fun t => Int (JSDate.WeekDay t)).

(** [isoWeek(d)], line by line.  Both dates of the last line are UTC
    midnights, so their difference is a whole number of days, and
    [Math.ceil] of the quotient by 7 is the integer ceiling (the rounding of
    the division cannot reach the next integer). *)
Definition isoWeek (d : number) : number :=
  (* const tmp = new Date(Date.UTC(d.getFullYear(), d.getMonth(), d.getDate())) *)
  let tmp := nbind (getFullYear d) (fun y =>
             nbind (getMonth d) (fun m =>
             nbind (getDate d) (fun dt => JSDate.UTC y m dt))) in
  (* const day = tmp.getUTCDay() || 7 *)
  let day := match getUTCDay tmp with
             | NaN => 7
             | Int k => if k =? 0 then 7 else k
             end in
  (* tmp.setUTCDate(tmp.getUTCDate() + 4 - day) *)
  let tmp' := nbind tmp (fun t =>
              nbind (getUTCDate tmp) (fun dt =>
              JSDate.setUTCDate t (dt + 4 - day))) in
  (* const yearStart = new Date(Date.UTC(tmp.getUTCFullYear(), 0, 1)) *)
  let yearStart := nbind (getUTCFullYear tmp') (fun y => JSDate.UTC y 0 1) in
  (* return Math.ceil(((tmp - yearStart)/86400000 + 1)/7) *)
  nbind tmp' (fun t =>
  nbind yearStart (fun t0 =>
  Int (ceil_div (t - t0 + 86400000) (7 * 86400000)))).

(** [period]: the bucket of the selected date; [d] is [new Date(date)]. *)
Definition period (d : number) : Period.t :=
  {| Period.week := isoWeek d;
     Period.month := nbind (getMonth d) (fun m => Int (m + 1));
     Period.year := getFullYear d |}.

End LocalTime.

Definition keep (filterRange : string) (period : Period.t) (e : Entry.t) : bool :=
  if String.eqb filterRange "week"%string then
    strict_eq (Entry.week e) (Period.week period)
    && strict_eq (Entry.year e) (Period.year period)
  else if String.eqb filterRange "month"%string then
    strict_eq (Entry.month e) (Period.month period)
    && strict_eq (Entry.year e) (Period.year period)
  else if String.eqb filterRange "year"%string then
    strict_eq (Entry.year e) (Period.year period)
  else true.

Definition filtered (entries : list Entry.t) (filterRange : string)
    (period : Period.t) : list Entry.t :=
  filter (keep filterRange period) entries.

Definition zero (n : string) : Totals.t :=
  {| Totals.name := n; Totals.intakes := 0; Totals.interviews := 0;
     Totals.placements := 0; Totals.prospects := 0 |}.

(** The four [+=] of the loop body on the record [r = base[e.name]]. *)
Definition bump (r : Totals.t) (e : Entry.t) : Totals.t :=
  {| Totals.name := Totals.name r;
     Totals.intakes := Totals.intakes r + or_zero (Entry.intakes e);
     Totals.interviews := Totals.interviews r + or_zero (Entry.interviews e);
     Totals.placements := Totals.placements r + or_zero (Entry.placements e);
     Totals.prospects := Totals.prospects r + or_zero (Entry.prospects e) |}.

(** The body of the loop over [filtered]: [base[e.name]] of an unknown name
    is [undefined] and the entry is passed over.  (A name that
    [Object.prototype] defines, such as [toString], reads an object that is
    no property of [base]; what is added to it never reaches
    [Object.values(base)], so such an entry is passed over as well.) *)
Definition add_entry (base : list (string * Totals.t)) (e : Entry.t)
    : list (string * Totals.t) :=
  match get base (Entry.name e) with
  | None => base
  | Some r => set base (Entry.name e) (bump r e)
  end.

Definition aggregated (filtered : list Entry.t) : list Totals.t :=
  let base := fromEntries (map (fun n => (n, zero n)) CONSULTANTS) in
  values (fold_left add_entry filtered base).

Definition total (aggregated : list Totals.t) : Sums.t :=
  fold_left (fun acc cur =>
    {| Sums.intakes := Sums.intakes acc + Totals.intakes cur;
       Sums.interviews := Sums.interviews acc + Totals.interviews cur;
       Sums.placements := Sums.placements acc + Totals.placements cur;
       Sums.prospects := Sums.prospects acc + Totals.prospects cur |})
    aggregated
    {| Sums.intakes := 0; Sums.interviews := 0; Sums.placements := 0;
       Sums.prospects := 0 |}.

(** The comparator handed to [sort]:
    [(b.placements-a.placements) || (b.intakes-a.intakes) || (b.interviews-a-interviews)].
    The third operand names [interviews], which no scope declares: reaching
    it throws a ReferenceError. *)
Definition ReferenceError : string :=
  "ReferenceError: interviews is not defined"%string.

Definition comparator (a b : Totals.t) : completion Z :=
  if negb (Totals.placements b - Totals.placements a =? 0) then
    Return (Totals.placements b - Totals.placements a)
  else if negb (Totals.intakes b - Totals.intakes a =? 0) then
    Return (Totals.intakes b - Totals.intakes a)
  else Throw ReferenceError.

(** [Array.prototype.sort] is stable and leaves the choice of the pairs it
    compares to the engine; the model is the stable insertion sort, and a
    throw of the comparator ends the sort. *)
Fixpoint insert (x : Totals.t) (l : list Totals.t) : completion (list Totals.t) :=
  match l with
  | [] => Return [x]
  | y :: l' =>
      match comparator x y with
      | Throw err => Throw err
      | Return v =>
          if 0 <? v then
            match insert x l' with
            | Throw err => Throw err
            | Return r => Return (y :: r)
            end
          else Return (x :: l)
      end
  end.

Fixpoint sort (l : list Totals.t) : completion (list Totals.t) :=
  match l with
  | [] => Return []
  | x :: l' =>
      match sort l' with
      | Throw err => Throw err
      | Return s => insert x s
      end
  end.

Definition ranking (aggregated : list Totals.t) : completion (list Totals.t) :=
  sort aggregated.

End Dashboard.

(** ** [Number(x) || 0] on a form field

    A form field holds the number [0] it starts from (and is reset to) or the
    string the input element reports.  [Number] of a string follows the
    StringNumericLiteral grammar of ECMA-262; the value is kept exactly, as
    [m * 10^e] (a double holds it exactly when it is an integer below 2^53).
    Strings are ASCII: of the white space of the grammar, TAB, LF, VT, FF, CR
    and SP. *)

Module Coercion.

Inductive numeric : Set :=
| NotANumber
| Infinite (negative : bool)
| Decimal (m e : Z).

Inductive formval : Set :=
| FieldNumber (n : numeric)
| FieldString (s : string)
| FieldUndefined.

Definition code (c : ascii) : Z := Z.of_nat (nat_of_ascii c).

Definition is_space (c : ascii) : bool :=
  ((9 <=? code c) && (code c <=? 13)) || (code c =? 32).

Definition is_digit (c : ascii) : bool := (48 <=? code c) && (code c <=? 57).

(** Value of a digit in a radix up to 16, if it is one. *)
Definition digit_in (radix : Z) (c : ascii) : option Z :=
  let v := if is_digit c then code c - 48
           else if (97 <=? code c) && (code c <=? 102) then code c - 87
           else if (65 <=? code c) && (code c <=? 70) then code c - 55
           else 16 in
  if v <? radix then Some v else None.

Fixpoint drop_spaces (l : list ascii) : list ascii :=
  match l with
  | c :: l' => if is_space c then drop_spaces l' else l
  | [] => []
  end.

Definition trim (l : list ascii) : list ascii :=
  rev (drop_spaces (rev (drop_spaces l))).

(** The longest prefix of decimal digits, and what follows it. *)
Fixpoint digits (l : list ascii) : list ascii * list ascii :=
  match l with
  | c :: l' =>
      if is_digit c then let (ds, rest) := digits l' in (c :: ds, rest)
      else ([], l)
  | [] => ([], [])
  end.

Definition value (ds : list ascii) : Z :=
  fold_left (fun acc c => 10 * acc + (code c - 48)) ds 0.

(** A whole string of digits in [radix]: its value, [None] when a character
    is no digit or the string is empty. *)
Fixpoint radix_value (radix : Z) (acc : Z) (l : list ascii) : option Z :=
  match l with
  | [] => Some acc
  | c :: l' =>
      match digit_in radix c with
      | Some v => radix_value radix (radix * acc + v) l'
      | None => None
      end
  end.

Definition non_decimal (radix : Z) (l : list ascii) : numeric :=
  match l with
  | [] => NotANumber
  | _ => match radix_value radix 0 l with
         | Some v => Decimal v 0
         | None => NotANumber
         end
  end.

Definition split_sign (l : list ascii) : bool * list ascii :=
  match l with
  | "+"%char :: r => (false, r)
  | "-"%char :: r => (true, r)
  | _ => (false, l)
  end.

Definition signed (negative : bool) (v : Z) : Z := if negative then - v else v.

(** ExponentPart_opt at the end of the literal. *)
Definition exponent (l : list ascii) : option Z :=
  match l with
  | [] => Some 0
  | c :: r =>
      if (code c =? 101) || (code c =? 69) then
        let (negative, r1) := split_sign r in
        match digits r1 with
        | (d :: ds, []) => Some (signed negative (value (d :: ds)))
        | _ => None
        end
      else None
  end.

(** StrDecimalLiteral. *)
Definition decimal (l : list ascii) : numeric :=
  let (negative, l1) := split_sign l in
  if list_eq_dec ascii_dec l1 (list_ascii_of_string "Infinity") then
    Infinite negative
  else
    let (ip, l2) := digits l1 in
    let '(fp, l3) := match l2 with
                     | "."%char :: r => digits r
                     | _ => ([], l2)
                     end in
    match ip ++ fp with
    | [] => NotANumber
    | ds =>
        match exponent l3 with
        | Some ex => Decimal (signed negative (value ds)) (ex - Z.of_nat (List.length fp))
        | None => NotANumber
        end
    end.

Definition StringToNumber (s : string) : numeric :=
  let l := trim (list_ascii_of_string s) in
  match l with
  | [] => Decimal 0 0
  | z :: c :: r =>
      if negb (code z =? 48) then decimal l
      else if (code c =? 120) || (code c =? 88) then non_decimal 16 r
      else if (code c =? 111) || (code c =? 79) then non_decimal 8 r
      else if (code c =? 98) || (code c =? 66) then non_decimal 2 r
      else decimal l
  | _ => decimal l
  end.

(** [Number(v)]. *)
Definition ToNumber (v : formval) : numeric :=
  match v with
  | FieldNumber n => n
  | FieldString s => StringToNumber s
  | FieldUndefined => NotANumber
  end.

Definition truthy (n : numeric) : bool :=
  match n with
  | NotANumber => false
  | Infinite _ => true
  | Decimal m _ => negb (m =? 0)
  end.

(** [Number(v) || 0]. *)
Definition Number_or_0 (v : formval) : numeric :=
  let n := ToNumber v in
  if truthy n then n else Decimal 0 0.

(** [n > 0]. *)
Definition positive (n : numeric) : bool :=
  match n with
  | NotANumber => false
  | Infinite negative => negb negative
  | Decimal m _ => 0 <? m
  end.



Definition is_nonneg_integer (n : numeric) : bool :=
  match n with
  | Decimal m e =>
      (0 <=? m) && ((0 <=? e) || (m mod 10 ^ (- e) =? 0))
  | _ => false
  end.


End Coercion.

(** ** The component's state, its handlers and [submit] *)

Module Form.
Record t : Set := make {
  intakes : Coercion.formval;
  interviews : Coercion.formval;
  placements : Coercion.formval;
  prospects : Coercion.formval
}.
(** [{ intakes: 0, interviews: 0, placements: 0, prospects: 0 }] *)
Definition zeros : t :=
  let z := Coercion.FieldNumber (Coercion.Decimal 0 0) in make z z z z.
End Form.

(** The document [submit] hands to [addDoc]; [date] is the time value that
    [d.toISOString()] prints, [createdAt] is the store's own timestamp. *)
Module Payload.
Record t : Set := make {
  name : string;
  date : Z;
  week : number;
  month : number;
  year : number;
  intakes : Coercion.numeric;
  interviews : Coercion.numeric;
  placements : Coercion.numeric;
  prospects : Coercion.numeric
}.
End Payload.

Module Session.

Import Coercion.

(** The [useState] cells of [App], the module-level [db] (configured or
    [null]) and the documents the store has accepted. *)
Record State : Set := mkState {
  authorized : bool;
  pin : string;
  activePerson : string;
  filterRange : string;
  date : string;
  entries : list Entry.t;
  loading : bool;
  form : Form.t;
  db : bool;
  store : list Payload.t
}.

Inductive Counter : Set := Intakes | Interviews | Placements | Prospects.

(** What the handlers of the rendered page can be called with.  [Submit]
    carries the fate of its [addDoc] call (resolved or rejected); a
    submission is taken as one step, with no other event during its
    [await]. *)
Inductive Event : Set :=
| SetPin (s : string)
| Unlock
| SetActivePerson (n : string)
| SetFilterRange (s : string)
| SetDate (s : string)
| SetField (c : Counter) (v : string)
| Reset
| Snapshot (docs : list Entry.t)
| Submit (resolved : bool).

Inductive Effect : Set :=
| PreventDefault
| Alert (msg : string)
| AddDoc (p : Payload.t)
| Confetti
| SetForm (f : Form.t).

(** Where the synchronous part of [submit] ends. *)
Inductive Suspended : Set :=
| Returned
| Threw (error : string)
| Awaiting (p : Payload.t).

Section Environment.

Variable LocalTZA : Z -> Z.

(** [new Date(s)] as a time value; the parse of a string that is not in the
    ISO format is left to the engine. *)
Variable DateParse : string -> number.

(** First render: [useState] initial values; [today] is [todayStr()]. *)
Definition init (today : string) (configured : bool) : State :=
  {| authorized := false; pin := EmptyString;
     activePerson := hd EmptyString Dashboard.CONSULTANTS;
     filterRange := "week"; date := today; entries := []; loading := true;
     form := Form.zeros; db := configured; store := [] |}.

(** Line 146: [setAuthorized(pin===PINCODE)]. *)
Definition unlock (st : State) : bool := String.eqb (pin st) Dashboard.PINCODE.

(** [submit] up to its [await]. *)
Definition submit_sync (st : State) : list Effect * Suspended :=
  if negb (authorized st) then
    ([PreventDefault; Alert "Enter access code first"%string], Returned)
  else if negb (db st) then
    ([PreventDefault;
      Alert "Firestore not configured (set VITE_FIREBASE_* env vars) in your host"%string],
     Returned)
  else
    let d := DateParse (date st) in
    match d with
    | NaN => ([PreventDefault], Threw "RangeError: Invalid time value"%string)
    | Int t =>
        let payload :=
          {| Payload.name := activePerson st;
             Payload.date := t;
             Payload.week := Dashboard.isoWeek LocalTZA d;
             Payload.month := nbind (Dashboard.getMonth LocalTZA d) (fun m => Int (m + 1));
             Payload.year := Dashboard.getFullYear LocalTZA d;
             Payload.intakes := Number_or_0 (Form.intakes (form st));
             Payload.interviews := Number_or_0 (Form.interviews (form st));
             Payload.placements := Number_or_0 (Form.placements (form st));
             Payload.prospects := Number_or_0 (Form.prospects (form st)) |} in
        ([PreventDefault; AddDoc payload], Awaiting payload)
    end.

(** [submit] after the [await]: reached only when the promise of [addDoc]
    resolved; a rejection is rethrown at the [await]. *)
Definition submit_resume (payload : Payload.t) (resolved : bool) : list Effect :=
  if resolved then
    (if positive (Payload.placements payload) then [Confetti] else [])
    ++ [SetForm Form.zeros]
  else [].

Definition submit (st : State) (resolved : bool) : list Effect :=
  let (effects, s) := submit_sync st in
  match s with
  | Awaiting payload => effects ++ submit_resume payload resolved
  | _ => effects
  end.

(** What an effect of [submit] does to the state; the store keeps the
    document of an [addDoc] it accepted. *)
Definition perform (resolved : bool) (st : State) (eff : Effect) : State :=
  match eff with
  | AddDoc p =>
      if resolved then
        mkState (authorized st) (pin st) (activePerson st) (filterRange st)
          (date st) (entries st) (loading st) (form st) (db st) (store st ++ [p])
      else st
  | SetForm f =>
      mkState (authorized st) (pin st) (activePerson st) (filterRange st)
        (date st) (entries st) (loading st) f (db st) (store st)
  | _ => st
  end.

Definition set_field (c : Counter) (v : string) (f : Form.t) : Form.t :=
  match c with
  | Intakes => Form.make (FieldString v) (Form.interviews f) (Form.placements f) (Form.prospects f)
  | Interviews => Form.make (Form.intakes f) (FieldString v) (Form.placements f) (Form.prospects f)
  | Placements => Form.make (Form.intakes f) (Form.interviews f) (FieldString v) (Form.prospects f)
  | Prospects => Form.make (Form.intakes f) (Form.interviews f) (Form.placements f) (FieldString v)
  end.

(** The gate (access-code input and Unlock button) is rendered while
    [!authorized], the form (fields, Save, Reset) once authorized. *)
Definition enabled (st : State) (ev : Event) : bool :=
  match ev with
  | SetPin _ | Unlock => negb (authorized st)
  | SetField _ _ | Reset | Submit _ => authorized st
  | SetActivePerson _ | SetFilterRange _ | SetDate _ | Snapshot _ => true
  end.

Definition step (st : State) (ev : Event) : State :=
  match ev with
  | SetPin s =>
      mkState (authorized st) s (activePerson st) (filterRange st) (date st)
        (entries st) (loading st) (form st) (db st) (store st)
  | Unlock =>
      mkState (unlock st) (pin st) (activePerson st) (filterRange st) (date st)
        (entries st) (loading st) (form st) (db st) (store st)
  | SetActivePerson n =>
      mkState (authorized st) (pin st) n (filterRange st) (date st)
        (entries st) (loading st) (form st) (db st) (store st)
  | SetFilterRange s =>
      mkState (authorized st) (pin st) (activePerson st) s (date st)
        (entries st) (loading st) (form st) (db st) (store st)
  | SetDate s =>
      mkState (authorized st) (pin st) (activePerson st) (filterRange st) s
        (entries st) (loading st) (form st) (db st) (store st)
  | SetField c v =>
      mkState (authorized st) (pin st) (activePerson st) (filterRange st) (date st)
        (entries st) (loading st) (set_field c v (form st)) (db st) (store st)
  | Reset =>
      mkState (authorized st) (pin st) (activePerson st) (filterRange st) (date st)
        (entries st) (loading st) Form.zeros (db st) (store st)
  | Snapshot docs =>
      mkState (authorized st) (pin st) (activePerson st) (filterRange st) (date st)
        docs false (form st) (db st) (store st)
  | Submit resolved => fold_left (perform resolved) (submit st resolved) st
  end.

(** A run of the page: events the rendered page offers, one after another. *)
Inductive run : State -> list Event -> State -> Prop :=
| run_nil st : run st [] st
| run_cons st ev evs st' :
    enabled st ev = true -> run (step st ev) evs st' -> run st (ev :: evs) st'.

End Environment.

End Session.

(** ** Vocabulary of the statements *)

Module Vocabulary.

(** A stored field and a reference number are equal: the same integer. *)
Definition same (v : jsval) (n : number) : Prop :=
  exists z, v = Number (Int z) /\ n = Int z.

(** The entries a filter mode asks for, in the words of the specification. *)
Definition wanted (mode : string) (p : Period.t) (e : Entry.t) : Prop :=
  if string_dec mode "week" then
    same (Entry.week e) (Period.week p) /\ same (Entry.year e) (Period.year p)
  else if string_dec mode "month" then
    same (Entry.month e) (Period.month p) /\ same (Entry.year e) (Period.year p)
  else if string_dec mode "year" then
    same (Entry.year e) (Period.year p)
  else True.

Definition list_sum (l : list Z) : Z := fold_right Z.add 0 l.

(** The sum of one counter over the entries of one member. *)
Definition sum_for (n : string) (f : Entry.t -> jsval) (es : list Entry.t) : Z :=
  list_sum (map (fun e => or_zero (f e))
                (filter (fun e => String.eqb (Entry.name e) n) es)).

Definition totals_for (es : list Entry.t) (n : string) : Totals.t :=
  {| Totals.name := n;
     Totals.intakes := sum_for n Entry.intakes es;
     Totals.interviews := sum_for n Entry.interviews es;
     Totals.placements := sum_for n Entry.placements es;
     Totals.prospects := sum_for n Entry.prospects es |}.

(** The record a member ends with: what it started with plus its entries. *)
Definition plus (r : Totals.t) (n : string) (es : list Entry.t) : Totals.t :=
  {| Totals.name := Totals.name r;
     Totals.intakes := Totals.intakes r + sum_for n Entry.intakes es;
     Totals.interviews := Totals.interviews r + sum_for n Entry.interviews es;
     Totals.placements := Totals.placements r + sum_for n Entry.placements es;
     Totals.prospects := Totals.prospects r + sum_for n Entry.prospects es |}.

(** The name of the entry is on the roster. *)
Definition known (e : Entry.t) : bool :=
  existsb (String.eqb (Entry.name e)) Dashboard.CONSULTANTS.

(** [a] ranks before [b] on the two keys the comparator reaches: more
    placements, or as many and more intakes. *)
Definition before (a b : Totals.t) : Prop :=
  Totals.placements b < Totals.placements a \/
  (Totals.placements b = Totals.placements a /\
   Totals.intakes b < Totals.intakes a).

Definition keys (a : Totals.t) : Z * Z := (Totals.placements a, Totals.intakes a).

(** Time value of 00:00 UTC on a calendar date (month 1..12), and a session
    whose local time is UTC. *)
Definition midnight (year month date : Z) : Z :=
  JSDate.MakeDate (JSDate.MakeDay year (month - 1) date) 0.

Definition utc (t : Z) : Z := 0.

(** One counter of the form and of the stored document. *)
Definition form_field (c : Session.Counter) (f : Form.t) : Coercion.formval :=
  match c with
  | Session.Intakes => Form.intakes f
  | Session.Interviews => Form.interviews f
  | Session.Placements => Form.placements f
  | Session.Prospects => Form.prospects f
  end.

Definition payload_field (c : Session.Counter) (p : Payload.t) : Coercion.numeric :=
  match c with
  | Session.Intakes => Payload.intakes p
  | Session.Interviews => Payload.interviews p
  | Session.Placements => Payload.placements p
  | Session.Prospects => Payload.prospects p
  end.

End Vocabulary.

(** ** Sample data *)

Module Samples.

(** A stored entry with all its fields. *)
Definition entry (n : string) (w m y i c p b : Z) : Entry.t :=
  Entry.make n (Number (Int w)) (Number (Int m)) (Number (Int y))
    (Number (Int i)) (Number (Int c)) (Number (Int p)) (Number (Int b)).

Definition marcus : Entry.t := entry "Marcus" 45 11 2026 4 2 3 1.
Definition gea : Entry.t := entry "Gea" 45 11 2026 6 1 0 2.
Definition zed : Entry.t := entry "Zed" 45 11 2026 9 9 9 9.

(** The bucket of 2026-11-03. *)
Definition nov2026 : Period.t := Period.make (Int 45) (Int 11) (Int 2026).

(** The members A and B of the ranking example, and two members that
    differ in interviews only. *)
Definition memberA : Totals.t := Totals.make "A" 10 0 5 0.
Definition memberB : Totals.t := Totals.make "B" 20 0 5 0.
Definition memberC : Totals.t := Totals.make "C" 10 1 5 0.
Definition memberD : Totals.t := Totals.make "D" 10 2 5 0.

(** The date field reads 2026-11-03, whatever its string. *)
Definition parse (s : string) : number := Int (Vocabulary.midnight 2026 11 3).

(** A session past the gate, with a form as typed: [-3] intakes. *)
Definition typed : Form.t :=
  Form.make (Coercion.FieldString "-3") (Coercion.FieldString "2")
    (Coercion.FieldString "1") (Coercion.FieldNumber (Coercion.Decimal 0 0)).

Definition unlocked : Session.State :=
  Session.mkState true "8448" "Marcus" "week" "2026-11-03" [] false typed true [].

(** The same session before the gate. *)
Definition locked : Session.State :=
  Session.mkState false "1234" "Marcus" "week" "2026-11-03" [] false typed true [].

End Samples.

(** ** Further vocabulary *)

Module Terms.

Import Coercion.

(** The empty grand total. *)
Definition no_sums : Sums.t := Sums.make 0 0 0 0.


(** The counters of an entry as [aggregated] reads them. *)
Definition counters (e : Entry.t) : Z * Z * Z * Z :=
  (or_zero (Entry.intakes e), or_zero (Entry.interviews e),
   or_zero (Entry.placements e), or_zero (Entry.prospects e)).

Definition nonneg_counters (e : Entry.t) : Prop :=
  0 <= or_zero (Entry.intakes e) /\ 0 <= or_zero (Entry.interviews e) /\
  0 <= or_zero (Entry.placements e) /\ 0 <= or_zero (Entry.prospects e).

Definition nonneg_totals (a : Totals.t) : Prop :=
  0 <= Totals.intakes a /\ 0 <= Totals.interviews a /\
  0 <= Totals.placements a /\ 0 <= Totals.prospects a.



(** The named filter modes, the options of the select element. *)
Definition named_mode (mode : string) : Prop :=
  mode = "week"%string \/ mode = "month"%string \/ mode = "year"%string.

(** The events of a run that pick a person or a filter carry what the page
    offers: a roster name (line 134), an option of the select (lines
    124-126). *)
Definition offered (ev : Session.Event) : Prop :=
  match ev with
  | Session.SetActivePerson n => In n Dashboard.CONSULTANTS
  | Session.SetFilterRange s => named_mode s
  | _ => True
  end.

(** A local time zone five hours west of Greenwich. *)
Definition west5 (t : Z) : Z := - 5 * 3600000.

End Terms.

(** ** Date strings: [toISOString], [todayStr] and date-only parsing

    [Date.prototype.toISOString] prints a time value in UTC as
    [YYYY-MM-DDTHH:mm:ss.sssZ], the year with four digits from 0 to 9999 and
    with a sign and six digits otherwise (ECMA-262, Date Time String
    Format). *)

Module ISOString.

Import JSDate.

Definition digit_char (k : Z) : ascii := ascii_of_nat (Z.to_nat (48 + k)).

(** [n] in [width] decimal digits, zero padded. *)
Fixpoint pad (width : nat) (n : Z) : list ascii :=
  match width with
  | O => []
  | S w => pad w (n / 10) ++ [digit_char (n mod 10)]
  end.

Definition HourFromTime (t : Z) : Z := (t / 3600000) mod 24.
Definition MinFromTime (t : Z) : Z := (t / 60000) mod 60.
Definition SecFromTime (t : Z) : Z := (t / 1000) mod 60.
Definition msFromTime (t : Z) : Z := t mod 1000.

Definition toISOString (t : Z) : string :=
  let y := YearFromTime t in
  let year :=
    if (0 <=? y) && (y <=? 9999) then pad 4 y
    else (if 0 <=? y then "+"%char else "-"%char) :: pad 6 (Z.abs y) in
  string_of_list_ascii
    (year ++ "-"%char :: pad 2 (MonthFromTime t + 1)
          ++ "-"%char :: pad 2 (DateFromTime t)
          ++ "T"%char :: pad 2 (HourFromTime t)
          ++ ":"%char :: pad 2 (MinFromTime t)
          ++ ":"%char :: pad 2 (SecFromTime t)
          ++ "."%char :: pad 3 (msFromTime t) ++ ["Z"%char]).

(** [s.slice(0, 10)]. *)
Definition slice_0_10 (s : string) : string :=
  string_of_list_ascii (firstn 10 (list_ascii_of_string s)).

(** [todayStr()], [now] being the time value of [new Date()]. *)
Definition todayStr (now : Z) : string := slice_0_10 (toISOString now).

(** Days of month [m] (1..12) of year [y]. *)
Definition days_in_month (y m : Z) : Z :=
  let leap := if DaysInYear y =? 365 then 0 else 1 in
  if m =? 12 then 31 else monthStart m leap - monthStart (m - 1) leap.

(** [new Date(s)] for a date-only string [YYYY-MM-DD] of a real date:
    midnight UTC of that date.  [None] stands for every other string, whose
    reading ECMA-262 fixes elsewhere or leaves to the engine. *)
Definition parse_date_only (s : string) : option number :=
  match list_ascii_of_string s with
  | [y1; y2; y3; y4; h1; m1; m2; h2; d1; d2] =>
      if Ascii.eqb h1 "-" && Ascii.eqb h2 "-"
         && forallb Coercion.is_digit [y1; y2; y3; y4; m1; m2; d1; d2]
      then
        let y := Coercion.value [y1; y2; y3; y4] in
        let m := Coercion.value [m1; m2] in
        let d := Coercion.value [d1; d2] in
        if (1 <=? m) && (m <=? 12) && (1 <=? d) && (d <=? days_in_month y m)
        then Some (TimeClip (MakeDate (MakeDay y (m - 1) d) 0))
        else None
      else None
  | _ => None
  end.

End ISOString.

(** ** More sample data *)

Module Cases.

(** No date: what [new Date(s)] gives for an emptied date field. *)
Definition no_date (s : string) : number := NaN.

(** A form of digit strings. *)
Definition digits_form : Form.t :=
  Form.make (Coercion.FieldString "4") (Coercion.FieldString "2")
    (Coercion.FieldString "3") (Coercion.FieldString "1").

(** Past the gate with a store, and past the gate without one. *)
Definition filled : Session.State :=
  Session.mkState true "8448" "Gea" "week" "2026-11-03" [] false digits_form
    true [].

Definition unconfigured : Session.State :=
  Session.mkState true "8448" "Gea" "week" "2026-11-03" [] false digits_form
    false [].

(** An engine's [new Date(s)] that reads date-only strings and nothing
    else. *)
Definition date_only (s : string) : number :=
  match ISOString.parse_date_only s with
  | Some n => n
  | None => NaN
  end.

(** A visit: unlock, pick Gea, type 3 placements, save. *)
Definition visit : list Session.Event :=
  [Session.SetPin "8448"; Session.Unlock; Session.SetActivePerson "Gea";
   Session.SetField Session.Placements "3"; Session.Submit true].

End Cases.

(** * Properties *)

(** ** The calendar arithmetic of [JSDate] *)

Module JSDateFacts.

Import JSDate.

Ltac euclid := Z.div_mod_to_equations; lia.

Lemma DaysInYear_cases y : DaysInYear y = 365 \/ DaysInYear y = 366.
Proof.
  unfold DaysInYear.
  destruct (y mod 4 =? 0), (y mod 100 =? 0), (y mod 400 =? 0); simpl; auto.
Qed.

(** A year is as long as [DaysInYear] says. *)
Lemma DayFromYear_succ y : DayFromYear (y + 1) = DayFromYear y + DaysInYear y.
Proof.
  unfold DayFromYear, DaysInYear.
  destruct (Z.eqb_spec (y mod 4) 0), (Z.eqb_spec (y mod 100) 0),
    (Z.eqb_spec (y mod 400) 0); cbn [negb]; euclid.
Qed.

Lemma DayFromYear_lt y y' : y < y' -> DayFromYear y + 365 <= DayFromYear y'.
Proof. unfold DayFromYear. intros. euclid. Qed.

Lemma DayFromYear_le y y' : y <= y' -> DayFromYear y <= DayFromYear y'.
Proof.
  intros H. destruct (Z.eq_dec y y') as [->|]; [lia|].
  pose proof (DayFromYear_lt y y'). lia.
Qed.

(** [YearFromDay] meets the definition of [YearFromTime]: the year holds the
    day, and no later year starts on or before it. *)
Lemma YearFromDay_spec day :
  DayFromYear (YearFromDay day) <= day < DayFromYear (YearFromDay day + 1).
Proof.
  unfold YearFromDay.
  destruct (Z.ltb_spec day (DayFromYear (1970 + day * 400 / 146097))).
  - unfold DayFromYear in *. euclid.
  - destruct (Z.leb_spec (DayFromYear (1970 + day * 400 / 146097 + 1)) day).
    + unfold DayFromYear in *. euclid.
    + lia.
Qed.

Lemma YearFromDay_unique day y :
  DayFromYear y <= day < DayFromYear (y + 1) -> YearFromDay day = y.
Proof.
  intros H. pose proof (YearFromDay_spec day) as S.
  destruct (Z.lt_trichotomy (YearFromDay day) y) as [L|[E|L]]; [|exact E|].
  - pose proof (DayFromYear_le (YearFromDay day + 1) y). lia.
  - pose proof (DayFromYear_le (y + 1) (YearFromDay day)). lia.
Qed.

Lemma YearFromTime_largest t y :
  TimeFromYear y <= t -> y <= YearFromTime t.
Proof.
  unfold TimeFromYear, YearFromTime, Day, msPerDay. intros H.
  pose proof (YearFromDay_spec (t / 86400000)) as S.
  destruct (Z.le_gt_cases y (YearFromDay (t / 86400000))) as [|L]; [assumption|].
  pose proof (DayFromYear_le (YearFromDay (t / 86400000) + 1) y).
  euclid.
Qed.

Lemma YearFromTime_holds t : TimeFromYear (YearFromTime t) <= t.
Proof.
  unfold TimeFromYear, YearFromTime, Day, msPerDay.
  pose proof (YearFromDay_spec (t / 86400000)). euclid.
Qed.

Lemma Day_midnight day : Day (MakeDate day 0) = day.
Proof. unfold Day, MakeDate, msPerDay. rewrite Z.add_0_r. apply Z.div_mul. lia. Qed.

Lemma TimeWithinDay_midnight day : TimeWithinDay (MakeDate day 0) = 0.
Proof. unfold TimeWithinDay, MakeDate, msPerDay. rewrite Z.add_0_r. apply Z.mod_mul. lia. Qed.

Lemma DayWithinYear_range t :
  0 <= DayWithinYear t < 365 + InLeapYear t.
Proof.
  unfold DayWithinYear, InLeapYear, YearFromTime.
  pose proof (YearFromDay_spec (Day t)) as S.
  rewrite DayFromYear_succ in S.
  destruct (DaysInYear_cases (YearFromDay (Day t))) as [E|E]; rewrite E in *; simpl; lia.
Qed.

Lemma InLeapYear_cases t : InLeapYear t = 0 \/ InLeapYear t = 1.
Proof. unfold InLeapYear. destruct (_ =? _); auto. Qed.

Lemma MonthFromTime_range t : 0 <= MonthFromTime t <= 11.
Proof.
  unfold MonthFromTime.
  repeat match goal with |- context [if ?b then _ else _] => destruct b end; lia.
Qed.

(** The month and date tables agree: the first day of the month plus the
    date is the day within the year. *)
Lemma month_date_table t :
  monthStart (MonthFromTime t) (InLeapYear t) + DateFromTime t - 1 = DayWithinYear t.
Proof.
  unfold DateFromTime, MonthFromTime.
  generalize (DayWithinYear t) (InLeapYear t). intros d l.
  repeat match goal with |- context [if ?b then _ else _] => destruct b end;
    cbn [monthStart]; lia.
Qed.

(** [MakeDay] on the year and month of [t]: only the date moves. *)
Lemma MakeDay_same_month t dt :
  MakeDay (YearFromTime t) (MonthFromTime t) dt = Day t + dt - DateFromTime t.
Proof.
  unfold MakeDay.
  pose proof (MonthFromTime_range t) as R.
  rewrite (Z.div_small (MonthFromTime t) 12), (Z.mod_small (MonthFromTime t) 12) by lia.
  rewrite Z.add_0_r.
  change (if DaysInYear (YearFromTime t) =? 365 then 0 else 1) with (InLeapYear t).
  pose proof (month_date_table t). unfold DayWithinYear in *. lia.
Qed.

Lemma MakeDay_jan1 y : MakeDay y 0 1 = DayFromYear y.
Proof.
  unfold MakeDay. cbn [Z.div Z.modulo Z.div_eucl monthStart].
  rewrite !Z.add_0_r. lia.
Qed.

Lemma TimeClip_midnight day :
  -100000000 <= day <= 100000000 -> TimeClip (MakeDate day 0) = Int (MakeDate day 0).
Proof.
  intros H. unfold TimeClip, MakeDate, msPerDay.
  destruct (Z.leb_spec (Z.abs (day * 86400000 + 0)) 8640000000000000); [reflexivity|lia].
Qed.

(** The time value that [MakeDay] is defined through exists and is the one
    computed: day [DayFromYear ym + monthStart mn] is the first of month [mn]
    of year [ym]. *)
Lemma MakeDay_first_of_month ym mn t :
  0 <= mn <= 11 -> Day t = MakeDay ym mn 1 ->
  YearFromTime t = ym /\ MonthFromTime t = mn /\ DateFromTime t = 1.
Proof.
  intros Hmn HD. unfold MakeDay in HD.
  rewrite (Z.div_small mn 12), (Z.mod_small mn 12), Z.add_0_r in HD by lia.
  set (leap := if DaysInYear ym =? 365 then 0 else 1) in HD.
  assert (Hs : 0 <= monthStart mn leap <= 334 + leap).
  { assert (leap = 0 \/ leap = 1) as [-> | ->]
      by (unfold leap; destruct (_ =? _); auto);
    assert (mn = 0 \/ mn = 1 \/ mn = 2 \/ mn = 3 \/ mn = 4 \/ mn = 5 \/ mn = 6 \/
            mn = 7 \/ mn = 8 \/ mn = 9 \/ mn = 10 \/ mn = 11) as Hc by lia;
    repeat (destruct Hc as [-> | Hc]); try subst mn; cbn; lia. }
  assert (Hy : YearFromTime t = ym).
  { unfold YearFromTime. apply YearFromDay_unique. rewrite DayFromYear_succ.
    destruct (DaysInYear_cases ym) as [E|E]; unfold leap in *; rewrite E in *;
      cbn in *; lia. }
  assert (Hl : InLeapYear t = leap) by (unfold InLeapYear; rewrite Hy; reflexivity).
  assert (Hd : DayWithinYear t = monthStart mn leap)
    by (unfold DayWithinYear; rewrite Hy; lia).
  split; [exact Hy|].
  unfold DateFromTime, MonthFromTime. rewrite Hd, Hl.
  assert (leap = 0 \/ leap = 1) as [-> | ->]
    by (unfold leap; destruct (_ =? _); auto);
  assert (mn = 0 \/ mn = 1 \/ mn = 2 \/ mn = 3 \/ mn = 4 \/ mn = 5 \/ mn = 6 \/
          mn = 7 \/ mn = 8 \/ mn = 9 \/ mn = 10 \/ mn = 11) as Hc by lia;
  repeat (destruct Hc as [-> | Hc]); try subst mn; cbn; auto.
Qed.

End JSDateFacts.

(** ** The reference week number *)

Module ISO8601Facts.

Import JSDate JSDateFacts ISO8601.

Lemma monday_of_spec day :
  monday_of day <= day < monday_of day + 7 /\ weekday (monday_of day) = 0.
Proof. unfold monday_of, weekday. euclid. Qed.

(** Week 01 holds 4 January, so it starts within three days of 1 January. *)
Lemma week01_near_jan1 y :
  DayFromYear y - 3 <= week01 y <= DayFromYear y + 3 /\ weekday (week01 y) = 0.
Proof. unfold week01, jan4, monday_of, weekday. euclid. Qed.

(** The week-numbering year of a day is the calendar year of the Thursday of
    its week. *)
Lemma week_year_thursday day : week_year day = YearFromDay (thursday day).
Proof.
  symmetry. apply YearFromDay_unique.
  unfold week_year, thursday.
  pose proof (YearFromDay_spec day) as S.
  pose proof (week01_near_jan1 (YearFromDay day)) as W0.
  pose proof (week01_near_jan1 (YearFromDay day + 1)) as W1.
  pose proof (DayFromYear_succ (YearFromDay day)) as L0.
  pose proof (DayFromYear_succ (YearFromDay day - 1)) as Lp.
  pose proof (DayFromYear_succ (YearFromDay day + 1)) as L1.
  pose proof (DaysInYear_cases (YearFromDay day)).
  pose proof (DaysInYear_cases (YearFromDay day - 1)).
  pose proof (DaysInYear_cases (YearFromDay day + 1)).
  replace (YearFromDay day - 1 + 1) with (YearFromDay day) in Lp by lia.
  destruct (Z.ltb_spec day (week01 (YearFromDay day)));
    [|destruct (Z.leb_spec (week01 (YearFromDay day + 1)) day)];
    replace (YearFromDay day - 1 + 1) with (YearFromDay day) by lia;
    unfold monday_of, weekday in *; euclid.
Qed.



(** The standard's week number is the Thursday rule of the specification:
    [ceil((days from 1 January of the Thursday's year + 1) / 7)]. *)
Lemma week_thursday_rule day :
  week day =
  ceil_div (thursday day - DayFromYear (YearFromDay (thursday day)) + 1) 7.
Proof.
  unfold week. rewrite week_year_thursday.
  pose proof (YearFromDay_spec (thursday day)) as S.
  pose proof (week01_near_jan1 (YearFromDay (thursday day))) as W0.
  unfold ceil_div, thursday, monday_of, weekday in *. euclid.
Qed.

End ISO8601Facts.

(** ** [isoWeek] *)

Module IsoWeekFacts.
Import JSDate JSDateFacts ISO8601 ISO8601Facts Dashboard.

Lemma UTC_plain y m dt :
  ~ (0 <= y <= 99) -> UTC y m dt = TimeClip (MakeDate (MakeDay y m dt) 0).
Proof.
  intros H. unfold UTC.
  destruct (Z.leb_spec 0 y), (Z.leb_spec y 99); cbn [andb]; try reflexivity; lia.
Qed.

Lemma thursday_js day :
  day + 4 - (if (day + 4) mod 7 =? 0 then 7 else (day + 4) mod 7) = thursday day.
Proof.
  unfold thursday, monday_of, weekday.
  destruct (Z.eqb_spec ((day + 4) mod 7) 0); euclid.
Qed.

Lemma thursday_range day :
  -100000000 <= day <= 100000000 -> day - 3 <= thursday day <= 100000000.
Proof. unfold thursday, monday_of, weekday. euclid. Qed.

Lemma DayFromYear_floor y : -271820 <= y -> -100000000 <= DayFromYear y.
Proof.
  intros H. pose proof (DayFromYear_le (-271820) y H) as L.
  change (DayFromYear (-271820)) with (-99999744) in L. lia.
Qed.

(** Away from the years 0..99, which [Date.UTC] reads as 1900..1999, and
    inside the range of time values, [isoWeek] of a date is the ISO-8601 week
    number of its local calendar day. *)
Theorem isoWeek_iso8601 LocalTZA t :
  let day := Day (LocalTime LocalTZA t) in
  -100000000 <= day <= 100000000 ->
  -271820 <= YearFromDay (thursday day) ->
  ~ (0 <= YearFromDay day <= 99) ->
  ~ (0 <= YearFromDay (thursday day) <= 99) ->
  isoWeek LocalTZA (Int t) = Int (week day).
Proof.
  intros day Hr Hy H1 H2.
  unfold isoWeek, getFullYear, getMonth, getDate. cbn [nbind].
  rewrite UTC_plain by exact H1.
  rewrite MakeDay_same_month.
  replace (Day (LocalTime LocalTZA t) + DateFromTime (LocalTime LocalTZA t) -
           DateFromTime (LocalTime LocalTZA t)) with day by (unfold day; lia).
  rewrite TimeClip_midnight by exact Hr.
  unfold getUTCDay, getUTCDate, getUTCFullYear. cbn [nbind].
  unfold WeekDay, setUTCDate. rewrite MakeDay_same_month, TimeWithinDay_midnight, Day_midnight.
  replace (day + (DateFromTime (MakeDate day 0) + 4 -
            (if (day + 4) mod 7 =? 0 then 7 else (day + 4) mod 7))
           - DateFromTime (MakeDate day 0))
    with (thursday day) by (rewrite <- thursday_js; lia).
  pose proof (thursday_range day Hr) as Ht.
  pose proof (YearFromDay_spec (thursday day)) as S.
  pose proof (DayFromYear_floor _ Hy) as F.
  rewrite TimeClip_midnight by lia. cbn [nbind].
  unfold YearFromTime. rewrite Day_midnight, UTC_plain by exact H2.
  rewrite MakeDay_jan1, TimeClip_midnight by lia. cbn [nbind].
  f_equal. rewrite week_thursday_rule.
  unfold ceil_div, MakeDate, msPerDay.
  generalize (thursday day) (DayFromYear (YearFromDay (thursday day))).
  clear. intros a b.
  replace (- (a * 86400000 + 0 - (b * 86400000 + 0) + 86400000))
    with (- (a - b + 1) * 86400000) by lia.
  rewrite Z.div_mul_cancel_r by lia. reflexivity.
Qed.
End IsoWeekFacts.

(** ** Objects as property lists *)

Section ObjectFacts.

Context {A : Type}.
Implicit Types (ks : list string) (g : string -> A).

Lemma get_keys ks g k :
  get (map (fun n => (n, g n)) ks) k = if in_dec string_dec k ks then Some (g k) else None.
Proof.
  induction ks as [|k' ks IH]; [reflexivity|].
  cbn [map get]. destruct (String.eqb_spec k' k) as [->|N].
  - destruct (in_dec string_dec k (k :: ks)) as [|C]; [reflexivity|].
    exfalso. apply C. now left.
  - rewrite IH.
    destruct (in_dec string_dec k ks) as [I|I],
             (in_dec string_dec k (k' :: ks)) as [J|J]; try reflexivity.
    + exfalso. apply J. now right.
    + destruct J as [J|J]; [congruence|contradiction].
Qed.

Lemma set_keys ks g k v :
  NoDup ks -> In k ks ->
  set (map (fun n => (n, g n)) ks) k v =
  map (fun n => (n, if String.eqb n k then v else g n)) ks.
Proof.
  induction 1 as [|k' ks Hk' Hnd IH]; intros Hin; [contradiction|].
  cbn [map set]. destruct (String.eqb_spec k' k) as [->|N].
  - f_equal. apply map_ext_in. intros n Hn.
    destruct (String.eqb_spec n k) as [->|]; [contradiction|reflexivity].
  - f_equal. apply IH. destruct Hin; [congruence|assumption].
Qed.

End ObjectFacts.

(** ** Filtering, aggregation and the grand total *)

Module AggregationFacts.

Import Dashboard Vocabulary.

Lemma strict_eq_same v n : strict_eq v n = true <-> same v n.
Proof.
  unfold same. destruct v as [|[|a]], n as [|b]; cbn; split;
    try discriminate; try (intros (z & E1 & E2); discriminate).
  - intros E. apply Z.eqb_eq in E. subst. eauto.
  - intros (z & E1 & E2). injection E1 as ->. injection E2 as ->. apply Z.eqb_refl.
Qed.

Lemma keep_wanted mode p e : keep mode p e = true <-> wanted mode p e.
Proof.
  unfold keep, wanted.
  destruct (string_dec mode "week") as [->|N1].
  { cbn. rewrite andb_true_iff, !strict_eq_same. reflexivity. }
  apply String.eqb_neq in N1. rewrite N1.
  destruct (string_dec mode "month") as [->|N2].
  { cbn. rewrite andb_true_iff, !strict_eq_same. reflexivity. }
  apply String.eqb_neq in N2. rewrite N2.
  destruct (string_dec mode "year") as [->|N3].
  { cbn. rewrite !strict_eq_same. reflexivity. }
  apply String.eqb_neq in N3. rewrite N3. tauto.
Qed.

Lemma CONSULTANTS_NoDup : NoDup CONSULTANTS.
Proof.
  unfold CONSULTANTS.
  repeat (apply NoDup_cons; [cbn; intuition discriminate|]).
  apply NoDup_nil.
Qed.

(** One pass of the loop body over a roster-shaped [base]. *)
Lemma add_entry_keys ks (g : string -> Totals.t) e :
  NoDup ks ->
  add_entry (map (fun n => (n, g n)) ks) e =
  map (fun n => (n, if String.eqb n (Entry.name e) then bump (g n) e else g n)) ks.
Proof.
  intros Hnd. unfold add_entry. rewrite get_keys.
  destruct (in_dec string_dec (Entry.name e) ks) as [I|I].
  - rewrite set_keys by assumption. apply map_ext. intros n.
    destruct (String.eqb_spec n (Entry.name e)) as [->|]; reflexivity.
  - apply map_ext_in. intros n Hn.
    destruct (String.eqb_spec n (Entry.name e)) as [->|]; [contradiction|reflexivity].
Qed.

Lemma plus_cons r n e es :
  plus r n (e :: es) =
  plus (if String.eqb n (Entry.name e) then bump r e else r) n es.
Proof.
  unfold plus, sum_for, list_sum. cbn [filter].
  rewrite (String.eqb_sym (Entry.name e) n).
  destruct (String.eqb n (Entry.name e)); [|reflexivity].
  cbn [map fold_right bump Totals.name Totals.intakes Totals.interviews
       Totals.placements Totals.prospects].
  f_equal; lia.
Qed.

Lemma loop_keys ks es : forall g : string -> Totals.t,
  NoDup ks ->
  fold_left add_entry es (map (fun n => (n, g n)) ks) =
  map (fun n => (n, plus (g n) n es)) ks.
Proof.
  induction es as [|e es IH]; intros g Hnd; cbn [fold_left].
  - apply map_ext. intros n. unfold plus, sum_for, list_sum. cbn.
    destruct (g n); cbn; f_equal; f_equal; lia.
  - rewrite add_entry_keys, IH by assumption.
    apply map_ext. intros n. now rewrite plus_cons.
Qed.

(** [aggregated] in closed form: the roster, each member with the sums of
    the entries that carry the member's name. *)
Lemma aggregated_closed_form es :
  aggregated es = map (totals_for es) CONSULTANTS.
Proof.
  unfold aggregated.
  change (fromEntries (map (fun n => (n, zero n)) CONSULTANTS))
    with (map (fun n => (n, zero n)) CONSULTANTS).
  rewrite loop_keys by apply CONSULTANTS_NoDup.
  unfold values. rewrite map_map. apply map_ext. intros n.
  unfold plus, totals_for, zero. cbn. reflexivity.
Qed.



Lemma total_sums : forall (l : list Totals.t) (acc : Sums.t),
  fold_left (fun acc cur =>
    {| Sums.intakes := Sums.intakes acc + Totals.intakes cur;
       Sums.interviews := Sums.interviews acc + Totals.interviews cur;
       Sums.placements := Sums.placements acc + Totals.placements cur;
       Sums.prospects := Sums.prospects acc + Totals.prospects cur |}) l acc =
  {| Sums.intakes := Sums.intakes acc + list_sum (map Totals.intakes l);
     Sums.interviews := Sums.interviews acc + list_sum (map Totals.interviews l);
     Sums.placements := Sums.placements acc + list_sum (map Totals.placements l);
     Sums.prospects := Sums.prospects acc + list_sum (map Totals.prospects l) |}.
Proof.
  unfold list_sum.
  induction l as [|a l IH]; intros acc; cbn [fold_left map fold_right].
  - destruct acc; cbn; f_equal; lia.
  - rewrite IH. cbn. f_equal; lia.
Qed.

End AggregationFacts.

(** ** The filter *)

Section Filter.

Import Dashboard Vocabulary AggregationFacts.

(** C3. The filtered subset is exactly the entries the mode asks for, in
    their order: in [week] mode those with the week and the year of the
    reference bucket, in [month] mode those with its month and year, in
    [year] mode those with its year, in any other mode all of them. *)
Theorem filtered_exactly_wanted (entries : list Entry.t) (mode : string)
    (p : Period.t) :
  (exists f : Entry.t -> bool,
      (forall e, f e = true <-> wanted mode p e) /\
      filtered entries mode p = filter f entries) /\
  (forall e, In e (filtered entries mode p) <-> In e entries /\ wanted mode p e).
Proof.
  split.
  - exists (keep mode p). split; [apply keep_wanted|reflexivity].
  - intros e. unfold filtered. rewrite filter_In, keep_wanted. reflexivity.
Qed.

(** What [wanted] says in each mode. *)
Lemma wanted_week p e :
  wanted "week" p e <->
  same (Entry.week e) (Period.week p) /\ same (Entry.year e) (Period.year p).
Proof. reflexivity. Qed.

Lemma wanted_month p e :
  wanted "month" p e <->
  same (Entry.month e) (Period.month p) /\ same (Entry.year e) (Period.year p).
Proof. reflexivity. Qed.

Lemma wanted_year p e :
  wanted "year" p e <-> same (Entry.year e) (Period.year p).
Proof. reflexivity. Qed.

Lemma filtered_other_mode entries mode p :
  mode <> "week"%string -> mode <> "month"%string -> mode <> "year"%string ->
  filtered entries mode p = entries.
Proof.
  intros N1 N2 N3. unfold filtered.
  induction entries as [|e es IH]; [reflexivity|]. cbn [filter].
  replace (keep mode p e) with true; [now rewrite IH|].
  symmetry. apply keep_wanted. unfold wanted.
  destruct (string_dec mode "week"), (string_dec mode "month"),
    (string_dec mode "year"); try contradiction. exact I.
Qed.

(** Entries of three weeks of one year: [week] mode keeps the one week. *)
Example filtered_three_weeks :
  filtered [Samples.entry "Nick" 44 10 2026 1 0 0 0; Samples.marcus;
            Samples.entry "Dion" 46 11 2026 2 0 0 0; Samples.gea;
            Samples.entry "Yde" 45 11 2025 5 0 0 0]
           "week" Samples.nov2026
  = [Samples.marcus; Samples.gea].
Proof. reflexivity. Qed.

End Filter.

(** ** The aggregator *)

Section Aggregator.

Import Dashboard Vocabulary AggregationFacts.


Lemma aggregated_names es : map Totals.name (aggregated es) = CONSULTANTS.
Proof.
  rewrite aggregated_closed_form, map_map. cbn [totals_for Totals.name].
  apply map_id.
Qed.




Lemma sum_for_rest n f (drop : Entry.t -> bool) es :
  (forall e, drop e = true -> known e = false) ->
  In n CONSULTANTS ->
  sum_for n f (filter (fun e => negb (drop e)) es) = sum_for n f es.
Proof.
  intros Hd Hn. unfold sum_for. f_equal. f_equal.
  induction es as [|e es IH]; [reflexivity|]. cbn [filter].
  destruct (drop e) eqn:D; cbn [negb filter].
  - rewrite IH. destruct (String.eqb_spec (Entry.name e) n) as [E|]; [|reflexivity].
    exfalso. apply Hd in D. unfold known in D.
    assert (existsb (String.eqb (Entry.name e)) CONSULTANTS = true); [|congruence].
    apply existsb_exists. exists n. split; [assumption|]. subst. apply String.eqb_refl.
  - now rewrite IH.
Qed.

Lemma filtered_filter (r : Entry.t -> bool) es mode p :
  filtered (filter r es) mode p = filter r (filtered es mode p).
Proof.
  unfold filtered. induction es as [|e es IH]; [reflexivity|]. cbn [filter].
  destruct (r e) eqn:K, (keep mode p e) eqn:F; cbn [filter];
    rewrite ?K, ?F, IH; reflexivity.
Qed.

(** C6. Entries whose name is not on the roster are passed over: every
    record of the output carries a roster name, and taking such entries out
    of the input changes no per-member total and not the grand total. *)
Theorem unknown_names_skipped (entries : list Entry.t) (mode : string)
    (p : Period.t) (drop : Entry.t -> bool) :
  (forall e, drop e = true -> known e = false) ->
  let rest := filter (fun e => negb (drop e)) entries in
  Forall (fun a => In (Totals.name a) CONSULTANTS)
    (aggregated (filtered entries mode p)) /\
  aggregated (filtered rest mode p) = aggregated (filtered entries mode p) /\
  total (aggregated (filtered rest mode p))
  = total (aggregated (filtered entries mode p)).
Proof.
  intros Hd rest.
  assert (E : aggregated (filtered rest mode p) = aggregated (filtered entries mode p)).
  { unfold rest. rewrite filtered_filter, !aggregated_closed_form.
    apply map_ext_in. intros n Hn. unfold totals_for.
    f_equal; now apply sum_for_rest. }
  split; [|split; [exact E|now rewrite E]].
  apply Forall_forall. intros a Ha.
  rewrite <- (aggregated_names (filtered entries mode p)).
  now apply in_map.
Qed.

Lemma unknown_names_skipped_witness :
  (forall e, negb (known e) = true -> known e = false) /\
  ~ In "Zed"%string
      (map Totals.name
         (aggregated (filtered [Samples.marcus; Samples.zed; Samples.gea]
                        "week" Samples.nov2026))) /\
  aggregated (filtered [Samples.marcus; Samples.gea] "week" Samples.nov2026)
  = aggregated (filtered [Samples.marcus; Samples.zed; Samples.gea]
                  "week" Samples.nov2026) /\
  total (aggregated (filtered [Samples.marcus; Samples.gea] "week" Samples.nov2026))
  = total (aggregated (filtered [Samples.marcus; Samples.zed; Samples.gea]
                         "week" Samples.nov2026)).
Proof.
  assert (Hd : forall e, negb (known e) = true -> known e = false)
    by (intros e H; now apply negb_true_iff).
  split; [exact Hd|].
  destruct (unknown_names_skipped [Samples.marcus; Samples.zed; Samples.gea]
              "week" Samples.nov2026 (fun e => negb (known e)) Hd) as (F & A & T).
  split; [|split; [exact A|exact T]].
  intros H. apply in_map_iff in H. destruct H as (a & Ea & Ha).
  rewrite Forall_forall in F. specialize (F a Ha). rewrite Ea in F.
  cbn in F. intuition discriminate.
Defined.

End Aggregator.

(** ** The ranking *)

Section Ranking.

Import Dashboard Vocabulary.

(** Two members level on placements and intakes: the comparator reaches its
    third operand and throws, whichever way round it is called. *)
Lemma comparator_tie a b : keys a = keys b -> comparator a b = Throw ReferenceError.
Proof.
  unfold keys, comparator. intros [= Hp Hi].
  rewrite Hp, Hi, !Z.sub_diag. reflexivity.
Qed.

Lemma comparator_returns a b :
  keys a <> keys b ->
  exists v, comparator a b = Return v /\ v <> 0 /\ (0 < v <-> before b a) /\
            (v < 0 <-> before a b).
Proof.
  unfold keys, comparator, before. intros N.
  destruct (Z.eqb_spec (Totals.placements b - Totals.placements a) 0) as [E|E];
    cbn [negb].
  - destruct (Z.eqb_spec (Totals.intakes b - Totals.intakes a) 0) as [E'|E'];
      cbn [negb].
    + exfalso. apply N. f_equal; lia.
    + eexists. split; [reflexivity|]. lia.
  - eexists. split; [reflexivity|]. lia.
Qed.

Lemma before_trans a b c : before a b -> before b c -> before a c.
Proof. unfold before. lia. Qed.

Lemma insert_sorted x : forall s r,
  insert x s = Return r -> StronglySorted before s ->
  Permutation (x :: s) r /\ StronglySorted before r.
Proof.
  induction s as [|y s IH]; intros r H S; cbn [insert] in H.
  - injection H as <-. split; [reflexivity|]. constructor; constructor.
  - destruct (comparator x y) as [v|] eqn:C; [|discriminate].
    assert (N : keys x <> keys y).
    { intros E. rewrite (comparator_tie _ _ E) in C. discriminate. }
    destruct (comparator_returns x y N) as (v' & C' & Hv & Hpos & Hneg).
    rewrite C in C'. injection C' as <-.
    inversion S as [|? ? S' F]; subst.
    destruct (Z.ltb_spec 0 v) as [L|L].
    + destruct (insert x s) as [r'|] eqn:I; [|discriminate].
      injection H as <-. destruct (IH r' eq_refl S') as [P S''].
      split.
      * rewrite perm_swap. now constructor.
      * constructor; [assumption|].
        apply (Permutation_Forall P). constructor; [now apply Hpos|assumption].
    + injection H as <-. split; [reflexivity|].
      assert (B : before x y) by (apply Hneg; lia).
      constructor; [assumption|]. constructor; [assumption|].
      eapply Forall_impl; [|exact F]. intros z. now apply before_trans.
Qed.

(** Whenever the ranking is produced, it is the members in descending order
    of placements, then intakes. *)
Lemma ranking_sorted l r :
  ranking l = Return r -> Permutation l r /\ StronglySorted before r.
Proof.
  unfold ranking. revert r. induction l as [|x l IH]; intros r H; cbn [sort] in H.
  - injection H as <-. split; constructor.
  - destruct (sort l) as [s|] eqn:E; [|discriminate].
    destruct (IH s eq_refl) as [P S].
    destruct (insert_sorted x s r H S) as [P' S'].
    split; [|assumption]. rewrite <- P'. now constructor.
Qed.

Lemma insert_returns x : forall s,
  ~ In (keys x) (map keys s) -> exists r, insert x s = Return r.
Proof.
  induction s as [|y s IH]; intros N; cbn [insert]; [eauto|].
  cbn [map In] in N.
  destruct (comparator_returns x y) as (v & -> & _); [intuition congruence|].
  destruct (0 <? v); [|eauto].
  destruct IH as [r ->]; [tauto|eauto].
Qed.

(** It is produced when no two members are level on placements and
    intakes. *)
Lemma ranking_returns l :
  NoDup (map keys l) -> exists r, ranking l = Return r.
Proof.
  unfold ranking. induction l as [|x l IH]; intros N; cbn [sort]; [eauto|].
  cbn [map] in N. inversion N as [|? ? Hx N']; subst.
  destruct (IH N') as [s E]. rewrite E.
  apply insert_returns. intros H. apply Hx.
  destruct (ranking_sorted l s E) as [P _].
  eapply Permutation_in; [|exact H]. apply Permutation_map. now symmetry.
Qed.

(** The example of the specification: level on placements, B has more
    intakes and comes first. *)
Example ranking_B_before_A :
  ranking [Samples.memberA; Samples.memberB]
  = Return [Samples.memberB; Samples.memberA].
Proof. reflexivity. Qed.

(** C2. Two members level on placements and intakes are to be ordered by
    interviews; the ranking throws instead: with C (interviews 1) and D
    (interviews 2), and already on the first render, where no entry has
    arrived and all seven members stand at zero. *)
Theorem ranking_throws_on_level_members :
  ranking [Samples.memberC; Samples.memberD] = Throw ReferenceError /\
  ranking (aggregated (filtered [] "week" Samples.nov2026)) = Throw ReferenceError.
Proof. split; reflexivity. Qed.

End Ranking.

(** ** [Number(x) || 0] *)

Module CoercionFacts.

Import Coercion.














End CoercionFacts.

(** ** Submission *)

Section Submission.

Import Coercion Session Vocabulary CoercionFacts.

Variable LocalTZA : Z -> Z.
Variable DateParse : string -> number.



(** The effects of [submit], by the way it ends. *)
Lemma submit_effects st resolved :
  (exists msg,
      submit LocalTZA DateParse st resolved = [PreventDefault; Alert msg]) \/
  submit LocalTZA DateParse st resolved = [PreventDefault] \/
  (exists p, submit LocalTZA DateParse st resolved
             = [PreventDefault; AddDoc p] ++ Session.submit_resume p resolved).
Proof.
  unfold Session.submit, Session.submit_sync.
  destruct (authorized st); cbn [negb]; [|left; eauto].
  destruct (db st); cbn [negb]; [|left; eauto].
  destruct (DateParse (date st)); [right; left; reflexivity|].
  right; right. eauto.
Qed.

(** C9. When the append fails, [submit] leaves the form and the store as
    they were and fires no confetti; confetti and the reset of the form
    happen in a run whose append resolved, after the [addDoc] call. *)
Theorem append_failure_keeps_form st :
  (form (step LocalTZA DateParse st (Submit false)) = form st /\
   store (step LocalTZA DateParse st (Submit false)) = store st /\
   ~ In Confetti (submit LocalTZA DateParse st false) /\
   (forall f, ~ In (SetForm f) (submit LocalTZA DateParse st false))) /\
  (forall resolved eff,
     In eff (submit LocalTZA DateParse st resolved) ->
     eff = Confetti \/ eff = SetForm Form.zeros ->
     resolved = true /\
     exists p post,
       submit LocalTZA DateParse st resolved = [PreventDefault; AddDoc p] ++ post /\
       In eff post).
Proof.
  split.
  - unfold Session.step.
    destruct (submit_effects st false) as [[msg E]|[E|[p E]]]; rewrite E; cbn;
      (split; [reflexivity|]); (split; [reflexivity|]);
      (split; [intros F|intros f F]);
      repeat (destruct F as [F|F]; try discriminate F); contradiction.
  - intros resolved eff Hin Hk.
    destruct (submit_effects st resolved) as [[msg E]|[E|[p E]]]; rewrite E in *.
    + exfalso. destruct Hin as [<-|[<-|[]]]; destruct Hk; discriminate.
    + exfalso. destruct Hin as [<-|[]]; destruct Hk; discriminate.
    + destruct resolved; cbn [Session.submit_resume] in *.
      * split; [reflexivity|]. eexists _, _. split; [reflexivity|].
        cbn [app] in Hin. destruct Hin as [<-|[<-|Hin]];
          [destruct Hk; discriminate|destruct Hk; discriminate|exact Hin].
      * exfalso. destruct Hin as [<-|[<-|[]]]; destruct Hk; discriminate.
Qed.

(** C10. With the gate locked, [submit] stops at its first check: it
    alerts, builds no document, calls no [addDoc], and leaves form, store
    and the rest of the state as they were. *)
Theorem submit_while_locked st resolved :
  authorized st = false ->
  submit_sync LocalTZA DateParse st
  = ([PreventDefault; Alert "Enter access code first"], Returned) /\
  submit LocalTZA DateParse st resolved
  = [PreventDefault; Alert "Enter access code first"] /\
  (forall p, ~ In (AddDoc p) (submit LocalTZA DateParse st resolved)) /\
  step LocalTZA DateParse st (Submit resolved) = st.
Proof.
  intros H.
  assert (E : submit_sync LocalTZA DateParse st
              = ([PreventDefault; Alert "Enter access code first"], Returned))
    by (unfold Session.submit_sync; now rewrite H).
  split; [exact E|].
  unfold Session.step, Session.submit.
  rewrite E. cbn.
  repeat split. intros p [F|[F|[]]]; discriminate.
Qed.

(** C8. The gate starts locked; Unlock opens it exactly when the code typed
    is the PIN, and leaves it locked otherwise; no event the page offers,
    and so no run of the page, locks an open gate again. *)
Theorem gate_state_machine :
  (forall today configured, authorized (init today configured) = false) /\
  (forall st, authorized st = false ->
     (authorized (step LocalTZA DateParse st Unlock) = true
      <-> pin st = Dashboard.PINCODE)) /\
  (forall st, authorized st = false -> pin st <> Dashboard.PINCODE ->
     authorized (step LocalTZA DateParse st Unlock) = false) /\
  (forall st ev, enabled st ev = true -> authorized st = true ->
     authorized (step LocalTZA DateParse st ev) = true) /\
  (forall st evs st', run LocalTZA DateParse st evs st' ->
     authorized st = true -> authorized st' = true).
Proof.
  assert (K : forall st ev, enabled st ev = true -> authorized st = true ->
                authorized (step LocalTZA DateParse st ev) = true).
  { intros st ev En A. destruct ev; cbn in *; try assumption;
      try (rewrite A in En; discriminate).
    generalize (Session.submit LocalTZA DateParse st resolved).
    intros effects. revert st A En.
    induction effects as [|eff effects IH]; intros st A En; [assumption|].
    cbn [fold_left]. apply IH; [|destruct eff; cbn; try assumption;
      destruct resolved; cbn; assumption].
    destruct eff; cbn; try assumption. destruct resolved; assumption. }
  split; [reflexivity|].
  split; [intros st _; cbn; unfold unlock; apply String.eqb_eq|].
  split; [intros st _ N; cbn; unfold unlock; now apply String.eqb_neq|].
  split; [exact K|].
  induction 1 as [|st ev evs st' En _ IH]; intros A; [assumption|].
  apply IH, K; assumption.
Qed.

End Submission.

(** ** Instances *)

Section Instances.

Import Coercion Session Vocabulary Dashboard.



(** A fraction is stored as it is, too. *)
Example stored_counter_fraction :
  Number_or_0 (FieldString "1.5") = Decimal 15 (-1) /\
  is_nonneg_integer (Number_or_0 (FieldString "1.5")) = false.
Proof. split; reflexivity. Qed.

Lemma submit_while_locked_witness :
  authorized Samples.locked = false /\
  submit utc Samples.parse Samples.locked true
  = [PreventDefault; Alert "Enter access code first"] /\
  step utc Samples.parse Samples.locked (Submit true) = Samples.locked.
Proof.
  split; [reflexivity|].
  destruct (submit_while_locked utc Samples.parse Samples.locked true eq_refl)
    as (_ & E & _ & S).
  split; [exact E|exact S].
Defined.

Lemma append_failure_keeps_form_witness :
  In Confetti (submit utc Samples.parse Samples.unlocked true) /\
  form (step utc Samples.parse Samples.unlocked (Submit false))
  = form Samples.unlocked /\
  exists p post,
    submit utc Samples.parse Samples.unlocked true
    = [PreventDefault; AddDoc p] ++ post /\ In Confetti post.
Proof.
  assert (I : In Confetti (submit utc Samples.parse Samples.unlocked true))
    by (vm_compute; tauto).
  destruct (append_failure_keeps_form utc Samples.parse Samples.unlocked)
    as ((F & _) & A).
  split; [exact I|]. split; [exact F|].
  exact (proj2 (A true Confetti I (or_introl eq_refl))).
Defined.

(** A failed append on [Samples.unlocked]: the call is made, nothing else. *)
Example append_failure_sample :
  exists p, submit utc Samples.parse Samples.unlocked false
            = [PreventDefault; AddDoc p] /\
  form (step utc Samples.parse Samples.unlocked (Submit false)) = Samples.typed /\
  exists p, submit utc Samples.parse Samples.unlocked true
            = [PreventDefault; AddDoc p; Confetti; SetForm Form.zeros].
Proof.
  eexists. split; [reflexivity|]. split; [reflexivity|].
  eexists. reflexivity.
Qed.

(** From the first render: a wrong code keeps the gate locked, the PIN
    opens it, and the open gate stays open through a submission. *)
Lemma gate_state_machine_witness :
  let st0 := init "2026-11-03" true in
  authorized (step utc Samples.parse st0 Unlock) = false /\
  authorized (step utc Samples.parse
                (step utc Samples.parse st0 (SetPin "8448")) Unlock) = true /\
  authorized (step utc Samples.parse Samples.unlocked (Submit true)) = true.
Proof.
  intros st0.
  destruct (gate_state_machine utc Samples.parse) as (_ & U & W & K & _).
  split; [apply W; [reflexivity|discriminate]|].
  split; [apply U; reflexivity|].
  apply K; reflexivity.
Defined.

(** The dates of the specification. *)
Example isoWeek_examples :
  isoWeek utc (Int (midnight 2023 1 1)) = Int 52 /\
  isoWeek utc (Int (midnight 2024 1 1)) = Int 1 /\
  isoWeek utc (Int (midnight 2021 1 4)) = Int 1 /\
  isoWeek utc (Int (midnight 2020 12 31)) = Int 53 /\
  isoWeek utc (Int (midnight 2024 12 30)) = Int 1 /\
  isoWeek utc (Int (midnight 2026 11 3)) = Int 45.
Proof. repeat split; vm_compute; reflexivity. Qed.

Lemma isoWeek_iso8601_witness :
  isoWeek utc (Int (midnight 2023 1 1))
  = Int (ISO8601.week (JSDate.Day (LocalTime utc (midnight 2023 1 1)))).
Proof.
  apply (IsoWeekFacts.isoWeek_iso8601 utc (midnight 2023 1 1));
    vm_compute; intuition discriminate.
Defined.

(** C1 fails on a date of the years 0..99.  2 January of the year 50 is a
    Sunday, in ISO week 52 (of the year 49); [Date.UTC(50, 0, 2)] is
    2 January 1950, a Monday, and [isoWeek] answers 1. *)
Theorem isoWeek_two_digit_year :
  let d := Int (midnight 50 1 2) in
  getFullYear utc d = Int 50 /\ getMonth utc d = Int 0 /\ getDate utc d = Int 2 /\
  JSDate.UTC 50 0 2 = Int (midnight 1950 1 2) /\
  isoWeek utc d = Int 1 /\
  ISO8601.week (JSDate.Day (midnight 50 1 2)) = 52.
Proof. repeat split; vm_compute; reflexivity. Qed.

End Instances.

(** * Further properties *)

(** ** The bucket of a date *)

Section Buckets.

Import JSDate JSDateFacts ISO8601 ISO8601Facts Dashboard Vocabulary Terms
  AggregationFacts.

(** Year, month and date of a time value are those of its day. *)
Lemma calendar_of_day t1 t2 :
  Day t1 = Day t2 ->
  YearFromTime t1 = YearFromTime t2 /\ MonthFromTime t1 = MonthFromTime t2 /\
  DateFromTime t1 = DateFromTime t2.
Proof.
  intros E.
  assert (Y : YearFromTime t1 = YearFromTime t2) by (unfold YearFromTime; now rewrite E).
  assert (D : DayWithinYear t1 = DayWithinYear t2) by (unfold DayWithinYear; now rewrite E, Y).
  assert (L : InLeapYear t1 = InLeapYear t2) by (unfold InLeapYear; now rewrite Y).
  assert (M : MonthFromTime t1 = MonthFromTime t2) by (unfold MonthFromTime; now rewrite D, L).
  repeat split; try assumption.
  unfold DateFromTime. now rewrite D, L, M.
Qed.

Lemma period_local_day (zone1 zone2 : Z -> Z) (t1 t2 : Z) :
  Day (LocalTime zone1 t1) = Day (LocalTime zone2 t2) ->
  period zone1 (Int t1) = period zone2 (Int t2).
Proof.
  intros E. destruct (calendar_of_day _ _ E) as (Y & M & D).
  unfold period, isoWeek, getFullYear, getMonth, getDate. cbn [nbind].
  now rewrite Y, M, D.
Qed.

(** X4. The bucket depends on the local calendar day only: two dates that fall
    on the same local day, in whatever time zones, have the same week, month
    and year. *)
Theorem period_of_local_day (zone1 zone2 : Z -> Z) (t1 t2 : Z) :
  Day (LocalTime zone1 t1) = Day (LocalTime zone2 t2) ->
  period zone1 (Int t1) = period zone2 (Int t2).
Proof. exact (period_local_day zone1 zone2 t1 t2). Qed.

Lemma period_of_local_day_witness :
  Day (LocalTime utc (midnight 2026 11 3))
  = Day (LocalTime utc (midnight 2026 11 3 + 17 * 3600000)) /\
  period utc (Int (midnight 2026 11 3))
  = period utc (Int (midnight 2026 11 3 + 17 * 3600000)).
Proof.
  split; [reflexivity|].
  apply (period_of_local_day utc utc). reflexivity.
Defined.

Lemma period_date_east (zone : Z -> Z) (day : Z) :
  0 <= zone (MakeDate day 0) < msPerDay ->
  period zone (Int (MakeDate day 0)) = period utc (Int (MakeDate day 0)).
Proof.
  intros H. apply period_local_day. unfold LocalTime, utc.
  revert H. generalize (zone (MakeDate day 0)). intros off H.
  unfold Day, MakeDate, msPerDay in *. euclid.
Qed.

(** X5. A date-only string stands for midnight UTC.  In a zone at or east of
    Greenwich (offset under a day) its bucket is the one of the day it
    names. *)
Theorem period_of_date_east (zone : Z -> Z) (day : Z) :
  0 <= zone (MakeDate day 0) < msPerDay ->
  period zone (Int (MakeDate day 0)) = period utc (Int (MakeDate day 0)).
Proof. exact (period_date_east zone day). Qed.

Lemma period_of_date_east_witness :
  0 <= 3600000 < msPerDay /\
  period (fun _ => 3600000) (Int (MakeDate 20760 0))
  = period utc (Int (MakeDate 20760 0)).
Proof.
  split; [unfold msPerDay; lia|].
  apply (period_of_date_east (fun _ => 3600000) 20760). unfold msPerDay. lia.
Defined.

Lemma period_date_west (zone : Z -> Z) (day : Z) :
  - msPerDay <= zone (MakeDate day 0) < 0 ->
  period zone (Int (MakeDate day 0)) = period utc (Int (MakeDate (day - 1) 0)).
Proof.
  intros H. apply period_local_day. unfold LocalTime, utc.
  revert H. generalize (zone (MakeDate day 0)). intros off H.
  unfold Day, MakeDate, msPerDay in *. euclid.
Qed.

(** X6. West of Greenwich midnight UTC is still the evening before: the bucket
    of a date-only string is the one of the previous day. *)
Theorem period_of_date_west (zone : Z -> Z) (day : Z) :
  - msPerDay <= zone (MakeDate day 0) < 0 ->
  period zone (Int (MakeDate day 0)) = period utc (Int (MakeDate (day - 1) 0)).
Proof. exact (period_date_west zone day). Qed.

(** Five hours west, the date 2024-01-01 is bucketed as 31 December 2023:
    week 52, month 12, year 2023. *)
Lemma period_of_date_west_witness :
  - msPerDay <= west5 (MakeDate 19723 0) < 0 /\
  MakeDate 19723 0 = midnight 2024 1 1 /\
  period west5 (Int (midnight 2024 1 1))
  = Period.make (Int 52) (Int 12) (Int 2023).
Proof.
  assert (H : - msPerDay <= west5 (MakeDate 19723 0) < 0)
    by (unfold msPerDay, west5; lia).
  split; [exact H|]. split; [reflexivity|].
  change (midnight 2024 1 1) with (MakeDate 19723 0).
  rewrite (period_of_date_west west5 19723 H). vm_compute. reflexivity.
Defined.



(** X3. Month and year of the bucket of any valid date. *)
Theorem period_month_year (zone : Z -> Z) (t : Z) :
  exists m y,
    Period.month (period zone (Int t)) = Int m /\ 1 <= m <= 12 /\
    Period.year (period zone (Int t)) = Int y /\
    DayFromYear y <= Day (LocalTime zone t) < DayFromYear (y + 1).
Proof.
  exists (MonthFromTime (LocalTime zone t) + 1), (YearFromTime (LocalTime zone t)).
  pose proof (MonthFromTime_range (LocalTime zone t)).
  split; [reflexivity|]. split; [lia|]. split; [reflexivity|].
  apply YearFromDay_spec.
Qed.

(** X7. An invalid date (the date field emptied) has the bucket
    [NaN, NaN, NaN]; no entry equals it, so each named filter mode selects
    nothing and every total is zero. *)
Theorem period_invalid_date (zone : Z -> Z) (entries : list Entry.t)
    (mode : string) :
  named_mode mode ->
  period zone NaN = Period.make NaN NaN NaN /\
  filtered entries mode (period zone NaN) = [] /\
  aggregated (filtered entries mode (period zone NaN)) = map zero CONSULTANTS /\
  total (aggregated (filtered entries mode (period zone NaN))) = no_sums.
Proof.
  intros Hm.
  assert (F : filtered entries mode (period zone NaN) = []).
  { unfold filtered. induction entries as [|e es IH]; [reflexivity|].
    cbn [filter]. rewrite IH.
    replace (keep mode (period zone NaN) e) with false; [reflexivity|].
    symmetry. unfold keep, strict_eq.
    destruct Hm as [-> | [-> | ->]]; cbn;
      destruct (Entry.week e) as [|[|?]], (Entry.month e) as [|[|?]],
        (Entry.year e) as [|[|?]]; reflexivity. }
  split; [reflexivity|]. split; [exact F|]. rewrite F. split; reflexivity.
Qed.

Lemma period_invalid_date_witness :
  named_mode "month" /\
  filtered [Samples.marcus; Samples.gea] "month" (period utc NaN) = [] /\
  total (aggregated (filtered [Samples.marcus; Samples.gea] "month"
                       (period utc NaN))) = no_sums.
Proof.
  assert (H : named_mode "month") by (right; left; reflexivity).
  destruct (period_invalid_date utc [Samples.marcus; Samples.gea] "month" H)
    as (_ & F & _ & T).
  split; [exact H|]. split; [exact F|exact T].
Defined.

End Buckets.

(** ** More on the filter and the aggregator *)

Section Views.

Import Dashboard Vocabulary Terms AggregationFacts.

(** X8. What the week view or the month view shows, the year view shows too. *)
Theorem filtered_within_year (entries : list Entry.t) (p : Period.t) :
  incl (filtered entries "week" p) (filtered entries "year" p) /\
  incl (filtered entries "month" p) (filtered entries "year" p).
Proof.
  split; intros e H; unfold filtered in *; rewrite filter_In in *;
    destruct H as [I K]; (split; [exact I|]); cbn in *;
    apply andb_true_iff in K; tauto.
Qed.

(** The filter keeps the order of the entries and works entry by entry:
    filtering a concatenation is concatenating the filtered parts. *)
Theorem filtered_app (es1 es2 : list Entry.t) (mode : string) (p : Period.t) :
  filtered (es1 ++ es2) mode p = filtered es1 mode p ++ filtered es2 mode p.
Proof. unfold filtered. apply filter_app. Qed.

Lemma aggregated_snoc (es : list Entry.t) (e : Entry.t) :
  aggregated (es ++ [e])
  = map (fun a => if String.eqb (Totals.name a) (Entry.name e)
                  then bump a e else a)
        (aggregated es).
Proof.
  unfold aggregated.
  change (fromEntries (map (fun n => (n, zero n)) CONSULTANTS))
    with (map (fun n => (n, zero n)) CONSULTANTS).
  rewrite fold_left_app. cbn [fold_left].
  rewrite loop_keys by apply CONSULTANTS_NoDup.
  rewrite add_entry_keys by apply CONSULTANTS_NoDup.
  unfold values. rewrite !map_map. apply map_ext. intros n. cbn [snd].
  unfold plus at 1. cbn [zero Totals.name]. reflexivity.
Qed.

(** X10. One more entry: the record of the member it names takes its four
    counters (a missing or [NaN] counter counts 0), every other record
    stays; an entry with a name off the roster changes nothing. *)
Theorem aggregated_one_more (es : list Entry.t) (e : Entry.t) :
  aggregated (es ++ [e])
  = map (fun a => if String.eqb (Totals.name a) (Entry.name e)
                  then bump a e else a)
        (aggregated es).
Proof. exact (aggregated_snoc es e). Qed.








Lemma sum_for_nonneg n f es :
  Forall (fun e => 0 <= or_zero (f e)) es -> 0 <= sum_for n f es.
Proof.
  unfold sum_for, list_sum. induction 1 as [|e es He _ IH]; cbn [filter].
  - cbn. lia.
  - destruct (String.eqb (Entry.name e) n); cbn [map fold_right]; lia.
Qed.

(** X13. No total is negative when no counter of an entry is. *)
Theorem totals_nonneg (es : list Entry.t) :
  Forall nonneg_counters es ->
  Forall nonneg_totals (aggregated es) /\
  0 <= Sums.intakes (total (aggregated es)) /\
  0 <= Sums.interviews (total (aggregated es)) /\
  0 <= Sums.placements (total (aggregated es)) /\
  0 <= Sums.prospects (total (aggregated es)).
Proof.
  intros H.
  assert (A : Forall nonneg_totals (aggregated es)).
  { rewrite aggregated_closed_form. apply Forall_forall. intros a Ha.
    apply in_map_iff in Ha. destruct Ha as (n & <- & _).
    unfold nonneg_totals, totals_for. cbn.
    repeat split; apply sum_for_nonneg; eapply Forall_impl; try exact H;
      unfold nonneg_counters; tauto. }
  split; [exact A|].
  unfold total. rewrite total_sums. cbn [Sums.intakes Sums.interviews
    Sums.placements Sums.prospects].
  induction A as [|a l Ha _ IH]; [cbn; lia|].
  unfold nonneg_totals in Ha. unfold list_sum in *. cbn [map fold_right]. lia.
Qed.

Lemma totals_nonneg_witness :
  Forall nonneg_counters [Samples.marcus; Samples.zed; Samples.gea] /\
  Forall nonneg_totals (aggregated [Samples.marcus; Samples.zed; Samples.gea]) /\
  0 <= Sums.placements (total (aggregated [Samples.marcus; Samples.zed; Samples.gea])).
Proof.
  assert (H : Forall nonneg_counters [Samples.marcus; Samples.zed; Samples.gea])
    by (repeat constructor; cbn; lia).
  destruct (totals_nonneg _ H) as (A & _ & _ & P & _).
  split; [exact H|]. split; [exact A|exact P].
Defined.

(** A negative counter in the store does lower the totals. *)
Example negative_counter_lowers_total :
  Sums.intakes (total (aggregated [Samples.marcus;
                                   Samples.entry "Gea" 45 11 2026 (-9) 0 0 0]))
  = -5.
Proof. reflexivity. Qed.

End Views.

(** ** When the ranking is produced *)

Section RankingProduced.

Import Dashboard Vocabulary.

Lemma before_keys a b : before a b -> keys a <> keys b.
Proof. unfold before, keys. intros H [= E1 E2]. lia. Qed.

Lemma sorted_keys_NoDup r : StronglySorted before r -> NoDup (map keys r).
Proof.
  induction 1 as [|a r S IH F]; cbn [map]; constructor; [|exact IH].
  intros H. apply in_map_iff in H. destruct H as (b & E & Hb).
  rewrite Forall_forall in F. apply (before_keys a b (F b Hb)). now symmetry.
Qed.

(** X14. The ranking is produced exactly when no two members are level on both
    placements and intakes; otherwise the comparator throws. *)
Theorem ranking_produced_iff (l : list Totals.t) :
  (exists r, ranking l = Return r) <-> NoDup (map keys l).
Proof.
  split; [|apply ranking_returns].
  intros [r H]. destruct (ranking_sorted l r H) as [P S].
  apply (Permutation_NoDup (l := map keys r)).
  - apply Permutation_map. now symmetry.
  - now apply sorted_keys_NoDup.
Qed.

(** X16. The member ranked first has the most placements. *)
Theorem ranking_first_most_placements (l : list Totals.t) (a : Totals.t)
    (r : list Totals.t) :
  ranking l = Return (a :: r) ->
  Forall (fun b => Totals.placements b <= Totals.placements a) l.
Proof.
  intros H. destruct (ranking_sorted l _ H) as [P S].
  inversion S as [|? ? _ F]; subst.
  apply (Permutation_Forall (Permutation_sym P)).
  constructor; [lia|].
  eapply Forall_impl; [|exact F]. unfold before. intros b. lia.
Qed.

Lemma ranking_first_most_placements_witness :
  ranking [Samples.memberA; Samples.memberB]
  = Return [Samples.memberB; Samples.memberA] /\
  Forall (fun b => Totals.placements b <= Totals.placements Samples.memberB)
    [Samples.memberA; Samples.memberB].
Proof.
  split; [reflexivity|].
  apply (ranking_first_most_placements [Samples.memberA; Samples.memberB]
           Samples.memberB [Samples.memberA]).
  reflexivity.
Defined.

End RankingProduced.

(** ** More on [submit] and the runs of the page *)

Section Runs.

Import Coercion Session Vocabulary Terms CoercionFacts.

Variable LocalTZA : Z -> Z.
Variable DateParse : string -> number.

(** X17. Past the gate but with no store configured, [submit] alerts and does
    nothing else: no document is built or sent, the form keeps its values. *)
Theorem submit_store_unconfigured (st : State) (resolved : bool) :
  authorized st = true -> db st = false ->
  submit LocalTZA DateParse st resolved
  = [PreventDefault;
     Alert "Firestore not configured (set VITE_FIREBASE_* env vars) in your host"] /\
  step LocalTZA DateParse st (Submit resolved) = st.
Proof.
  intros A D. unfold Session.step, Session.submit, Session.submit_sync.
  rewrite A, D. cbn. split; reflexivity.
Qed.

(** X18. With an invalid date (an emptied date field) [d.toISOString()] throws
    while the document is built: [addDoc] is not called, nothing is stored,
    the form keeps its values. *)
Theorem submit_invalid_date (st : State) (resolved : bool) :
  authorized st = true -> db st = true -> DateParse (date st) = NaN ->
  submit_sync LocalTZA DateParse st
  = ([PreventDefault], Threw "RangeError: Invalid time value") /\
  (forall p, ~ In (AddDoc p) (submit LocalTZA DateParse st resolved)) /\
  step LocalTZA DateParse st (Submit resolved) = st.
Proof.
  intros A D N. unfold Session.step, Session.submit, Session.submit_sync.
  rewrite A, D, N. cbn. repeat split. intros p [F|[]]. discriminate.
Qed.

Lemma submit_accepted_run (st : State) (t : Z) :
  authorized st = true -> db st = true -> DateParse (date st) = Int t ->
  exists p,
    submit_sync LocalTZA DateParse st = ([PreventDefault; AddDoc p], Awaiting p) /\
    step LocalTZA DateParse st (Submit true)
    = mkState true (pin st) (activePerson st) (filterRange st) (date st)
        (entries st) (loading st) Form.zeros true (store st ++ [p]) /\
    Payload.name p = activePerson st /\ Payload.date p = t /\
    Period.make (Payload.week p) (Payload.month p) (Payload.year p)
    = Dashboard.period LocalTZA (Int t) /\
    (forall c, payload_field c p = Number_or_0 (form_field c (form st))) /\
    (In Confetti (submit LocalTZA DateParse st true)
     <-> positive (Payload.placements p) = true).
Proof.
  intros A D E. eexists.
  unfold Session.step, Session.submit, Session.submit_sync.
  rewrite A, D, E. cbn [negb].
  split; [reflexivity|].
  cbn [Session.submit_resume Payload.placements Payload.name Payload.date
       Payload.week Payload.month Payload.year].
  split.
  { destruct (positive (Number_or_0 (Form.placements (form st))));
      cbn; rewrite A, D; reflexivity. }
  split; [reflexivity|]. split; [reflexivity|]. split; [reflexivity|].
  split; [intros []; reflexivity|].
  destruct (positive (Number_or_0 (Form.placements (form st)))); cbn.
  - split; [reflexivity|]. tauto.
  - split; [|discriminate].
    intros [F|[F|[F|[]]]]; discriminate.
Qed.

(** X19. A submission that the store accepts: the store gains exactly the
    document, at its end; the document names the active person and carries
    the bucket of the selected date and the coerced form; the form is reset
    to zeros and nothing else of the state changes; confetti fires exactly
    when the stored placements are positive. *)
Theorem submit_accepted (st : State) (t : Z) :
  authorized st = true -> db st = true -> DateParse (date st) = Int t ->
  exists p,
    submit_sync LocalTZA DateParse st = ([PreventDefault; AddDoc p], Awaiting p) /\
    step LocalTZA DateParse st (Submit true)
    = mkState true (pin st) (activePerson st) (filterRange st) (date st)
        (entries st) (loading st) Form.zeros true (store st ++ [p]) /\
    Payload.name p = activePerson st /\ Payload.date p = t /\
    Period.make (Payload.week p) (Payload.month p) (Payload.year p)
    = Dashboard.period LocalTZA (Int t) /\
    (forall c, payload_field c p = Number_or_0 (form_field c (form st))) /\
    (In Confetti (submit LocalTZA DateParse st true)
     <-> positive (Payload.placements p) = true).
Proof. exact (submit_accepted_run st t). Qed.


(** What a submission leaves alone, and what it may do to the store. *)
Lemma submit_frame (st : State) (resolved : bool) :
  forall st', st' = step LocalTZA DateParse st (Submit resolved) ->
  authorized st' = authorized st /\ pin st' = pin st /\ db st' = db st /\
  activePerson st' = activePerson st /\ filterRange st' = filterRange st /\
  (store st' = store st \/
   (authorized st = true /\ db st = true /\
    exists p, Payload.name p = activePerson st /\ store st' = store st ++ [p])).
Proof.
  intros st' ->. cbn. unfold Session.submit, Session.submit_sync.
  destruct (authorized st) eqn:A; cbn [negb]; [|cbn; tauto].
  destruct (db st) eqn:D; cbn [negb]; [|cbn; tauto].
  destruct (DateParse (date st)); [cbn; tauto|].
  destruct resolved; cbn [Session.submit_resume]; [|cbn; tauto].
  match goal with |- context [positive ?n] => destruct (positive n) end;
    cbn; repeat (split; [first [reflexivity|assumption]|]); right;
    (split; [reflexivity|]); (split; [reflexivity|]);
    eexists; (split; [|reflexivity]); reflexivity.
Qed.

(** A step of the page leaves the store as it is or appends one document
    to it, and never touches [db]. *)
Lemma step_store (st : State) (ev : Event) :
  db (step LocalTZA DateParse st ev) = db st /\
  (store (step LocalTZA DateParse st ev) = store st \/
   exists p, store (step LocalTZA DateParse st ev) = store st ++ [p]).
Proof.
  destruct ev; try (cbn; split; [reflexivity|left; reflexivity]).
  destruct (submit_frame st resolved _ eq_refl)
    as (_ & _ & D & _ & _ & [S|(_ & _ & p & _ & S)]).
  - split; [exact D|left; exact S].
  - split; [exact D|right; exists p; exact S].
Qed.

(** X21. The store is append-only: whatever the events, a run only adds
    documents at the end of the store, at most one per event. *)
Theorem store_append_only (st st' : State) (evs : list Event) :
  run LocalTZA DateParse st evs st' ->
  exists added, store st' = store st ++ added /\
                (List.length added <= List.length evs)%nat.
Proof.
  induction 1 as [st|st ev evs st' En R IH].
  - exists []. split; [now rewrite app_nil_r|cbn; lia].
  - destruct IH as (added & E & L).
    destruct (step_store st ev) as (_ & [S|[p S]]); rewrite S in E.
    + exists added. split; [exact E|cbn; lia].
    + exists (p :: added). split; [now rewrite E, <- app_assoc|cbn; lia].
Qed.

(** The form after a submission: as it was, or reset. *)
Lemma submit_form (st : State) (resolved : bool) :
  form (step LocalTZA DateParse st (Submit resolved)) = form st \/
  form (step LocalTZA DateParse st (Submit resolved)) = Form.zeros.
Proof.
  cbn. destruct (submit_effects LocalTZA DateParse st resolved)
    as [[msg E]|[E|[p E]]]; rewrite E; cbn [fold_left app perform];
    try (left; reflexivity).
  destruct resolved; cbn [Session.submit_resume]; [|cbn; now left].
  destruct (positive (Payload.placements p)); cbn; now right.
Qed.

(** X22. What holds of every state a run reaches from the first render: [db] is
    as configured; an open gate means the code typed is the PIN; behind a
    locked gate the store of the session is empty and the form untouched;
    with no store configured nothing is ever stored. *)
Theorem first_render_invariants (today : string) (configured : bool)
    (evs : list Event) (st : State) :
  run LocalTZA DateParse (init today configured) evs st ->
  db st = configured /\
  (authorized st = true -> pin st = Dashboard.PINCODE) /\
  (authorized st = false -> store st = [] /\ form st = Form.zeros) /\
  (configured = false -> store st = []).
Proof.
  set (Inv := fun s : State =>
    db s = configured /\
    (authorized s = true -> pin s = Dashboard.PINCODE) /\
    (authorized s = false -> store s = [] /\ form s = Form.zeros) /\
    (configured = false -> store s = [])).
  assert (K : forall s ev, enabled s ev = true -> Inv s ->
                Inv (step LocalTZA DateParse s ev)).
  { intros s ev En (D & P & L & C). unfold Inv.
    destruct ev;
      try (cbn in En |- *; tauto);
      try (cbn in En |- *; apply negb_true_iff in En;
           repeat split; try tauto; try congruence;
           unfold unlock; apply String.eqb_eq).
    - (* SetField *)
      cbn in En |- *. repeat split; try tauto; exfalso; congruence.
    - (* Submit *)
      cbn [enabled] in En.
      destruct (submit_frame s resolved _ eq_refl)
        as (A' & P' & D' & _ & _ & S').
      rewrite A', P', D'.
      split; [exact D|]. split; [exact P|].
      split; [intros F; exfalso; congruence|].
      intros F. destruct S' as [S'|(_ & Dt & _)]; [|exfalso; congruence].
      rewrite S'. now apply C. }
  assert (I0 : Inv (init today configured)).
  { unfold Inv. cbn. repeat split; try reflexivity; discriminate. }
  intros R. revert I0. generalize dependent (init today configured).
  intros s0 R. induction R as [s|s ev evs s' En R IH]; intros I0; [exact I0|].
  apply IH, K; assumption.
Qed.

(** X23. When the events that pick a person or a filter carry what the page
    offers, every document in the store names a roster member, and the
    filter mode is one of week, month and year: the mode that selects all
    entries is out of reach. *)
Theorem offered_choices_kept (today : string) (configured : bool)
    (evs : list Event) (st : State) :
  run LocalTZA DateParse (init today configured) evs st ->
  Forall offered evs ->
  In (activePerson st) Dashboard.CONSULTANTS /\
  named_mode (filterRange st) /\
  Forall (fun p => In (Payload.name p) Dashboard.CONSULTANTS) (store st).
Proof.
  set (Inv := fun s : State =>
    In (activePerson s) Dashboard.CONSULTANTS /\ named_mode (filterRange s) /\
    Forall (fun p => In (Payload.name p) Dashboard.CONSULTANTS) (store s)).
  assert (K : forall s ev, offered ev -> Inv s ->
                Inv (step LocalTZA DateParse s ev)).
  { intros s ev O (A & M & S). unfold Inv.
    destruct ev; try (cbn in O |- *; tauto).
    destruct (submit_frame s resolved _ eq_refl) as (_ & _ & _ & A' & M' & S').
    rewrite A', M'.
    split; [assumption|]. split; [assumption|].
    destruct S' as [->|(_ & _ & p & N & ->)]; [assumption|].
    apply Forall_app. split; [assumption|].
    constructor; [now rewrite N|constructor]. }
  assert (I0 : Inv (init today configured)).
  { unfold Inv. cbn. split; [now left|]. split; [now left|constructor]. }
  intros R. revert I0. generalize dependent (init today configured).
  intros s0 R. induction R as [s|s ev evs s' En R IH]; intros I0 O; [exact I0|].
  inversion O; subst. apply IH; [apply K|]; assumption.
Qed.







End Runs.

(** ** Instances of the properties of [submit] and of the runs *)

Section RunInstances.

Import Coercion Session Vocabulary Terms.

Lemma submit_accepted_witness :
  exists p,
    step utc Samples.parse Samples.unlocked (Submit true)
    = mkState true "8448" "Marcus" "week" "2026-11-03" [] false Form.zeros true [p] /\
    Payload.name p = "Marcus"%string /\
    Period.make (Payload.week p) (Payload.month p) (Payload.year p)
    = Samples.nov2026 /\
    payload_field Placements p = Decimal 1 0 /\
    In Confetti (submit utc Samples.parse Samples.unlocked true).
Proof.
  destruct (submit_accepted utc Samples.parse Samples.unlocked
              (midnight 2026 11 3) eq_refl eq_refl eq_refl)
    as (p & _ & S & N & _ & B & F & C).
  exists p. split; [exact S|]. split; [exact N|].
  split; [rewrite B; vm_compute; reflexivity|].
  split; [exact (F Placements)|].
  apply C. change (positive (payload_field Placements p) = true).
  rewrite (F Placements). reflexivity.
Defined.


Lemma submit_store_unconfigured_witness :
  authorized Cases.unconfigured = true /\ db Cases.unconfigured = false /\
  step utc Samples.parse Cases.unconfigured (Submit true) = Cases.unconfigured.
Proof.
  split; [reflexivity|]. split; [reflexivity|].
  apply (submit_store_unconfigured utc Samples.parse Cases.unconfigured true);
    reflexivity.
Defined.

Lemma submit_invalid_date_witness :
  Cases.no_date (date Cases.filled) = NaN /\
  submit_sync utc Cases.no_date Cases.filled
  = ([PreventDefault], Threw "RangeError: Invalid time value") /\
  step utc Cases.no_date Cases.filled (Submit true) = Cases.filled.
Proof.
  split; [reflexivity|].
  destruct (submit_invalid_date utc Cases.no_date Cases.filled true
              eq_refl eq_refl eq_refl) as (S & _ & T).
  split; [exact S|exact T].
Defined.

Lemma visit_run :
  exists st, run utc Samples.parse (init "2026-11-03" true) Cases.visit st.
Proof.
  eexists. unfold Cases.visit.
  repeat (eapply run_cons; [reflexivity|]). apply run_nil.
Defined.

Lemma store_append_only_witness :
  exists st added,
    run utc Samples.parse (init "2026-11-03" true) Cases.visit st /\
    store st = store (init "2026-11-03" true) ++ added /\
    (List.length added <= List.length Cases.visit)%nat.
Proof.
  destruct visit_run as [st R]. exists st.
  destruct (store_append_only utc Samples.parse _ _ _ R) as (added & E & L).
  exists added. split; [exact R|]. split; [exact E|exact L].
Defined.

Lemma first_render_invariants_witness :
  exists st,
    run utc Samples.parse (init "2026-11-03" true) Cases.visit st /\
    db st = true /\ (authorized st = true -> pin st = Dashboard.PINCODE).
Proof.
  destruct visit_run as [st R]. exists st.
  destruct (first_render_invariants utc Samples.parse _ _ _ _ R) as (D & P & _).
  split; [exact R|]. split; [exact D|exact P].
Defined.

Lemma offered_choices_kept_witness :
  exists st,
    run utc Samples.parse (init "2026-11-03" true) Cases.visit st /\
    Forall offered Cases.visit /\
    In (activePerson st) Dashboard.CONSULTANTS /\
    named_mode (filterRange st) /\
    Forall (fun p => In (Payload.name p) Dashboard.CONSULTANTS) (store st).
Proof.
  destruct visit_run as [st R]. exists st.
  assert (O : Forall offered Cases.visit).
  { unfold Cases.visit.
    repeat (apply Forall_cons; [cbn; auto 10|]). apply Forall_nil. }
  split; [exact R|]. split; [exact O|].
  exact (offered_choices_kept utc Samples.parse _ _ _ _ R O).
Defined.



End RunInstances.

(** ** Negative numerals *)

Section Numerals.

Import Coercion CoercionFacts.





End Numerals.

(** ** Today's date *)

Section Today.

Import JSDate JSDateFacts ISOString Vocabulary Terms Dashboard.

Lemma code_digit_char k : 0 <= k <= 9 -> Coercion.code (digit_char k) = 48 + k.
Proof.
  intros H. unfold Coercion.code, digit_char.
  rewrite nat_ascii_embedding by lia. lia.
Qed.

Lemma is_digit_digit_char k : 0 <= k <= 9 -> Coercion.is_digit (digit_char k) = true.
Proof.
  intros H. unfold Coercion.is_digit. rewrite code_digit_char by assumption.
  apply andb_true_iff. split; lia.
Qed.

Lemma mod10 n : 0 <= n mod 10 <= 9.
Proof. pose proof (Z.mod_pos_bound n 10). lia. Qed.

(** The date is within its month. *)
Lemma DateFromTime_range t :
  1 <= DateFromTime t <= days_in_month (YearFromTime t) (MonthFromTime t + 1) /\
  DateFromTime t <= 31.
Proof.
  pose proof (DayWithinYear_range t) as R.
  unfold days_in_month.
  change (if DaysInYear (YearFromTime t) =? 365 then 0 else 1) with (InLeapYear t).
  unfold DateFromTime, MonthFromTime.
  destruct (InLeapYear_cases t) as [L|L]; rewrite L in *;
    generalize dependent (DayWithinYear t); intros d R;
    repeat match goal with |- context [if ?b <? ?c then _ else _] =>
             destruct (Z.ltb_spec b c) end;
    cbn; lia.
Qed.

Lemma value_pad2 n :
  0 <= n <= 99 ->
  Coercion.value [digit_char ((n / 10) mod 10); digit_char (n mod 10)] = n.
Proof.
  intros H. unfold Coercion.value. cbn [fold_left].
  rewrite !code_digit_char by apply mod10. euclid.
Qed.

Lemma value_pad4 n :
  0 <= n <= 9999 ->
  Coercion.value [digit_char ((n / 10 / 10 / 10) mod 10);
                  digit_char ((n / 10 / 10) mod 10);
                  digit_char ((n / 10) mod 10); digit_char (n mod 10)] = n.
Proof.
  intros H. unfold Coercion.value. cbn [fold_left].
  rewrite !code_digit_char by apply mod10. euclid.
Qed.

Lemma todayStr_parsed (now : Z) :
  0 <= YearFromTime now <= 9999 ->
  String.length (todayStr now) = 10%nat /\
  parse_date_only (todayStr now) = Some (Int (MakeDate (Day now) 0)).
Proof.
  intros Hy. unfold todayStr, slice_0_10, toISOString.
  replace ((0 <=? YearFromTime now) && (YearFromTime now <=? 9999)) with true
    by (symmetry; apply andb_true_iff; split; lia).
  rewrite list_ascii_of_string_of_list_ascii.
  cbn [pad app firstn].
  split; [reflexivity|].
  unfold parse_date_only. rewrite list_ascii_of_string_of_list_ascii.
  pose proof (MonthFromTime_range now) as Hm.
  destruct (DateFromTime_range now) as [Hd Hd31].
  rewrite value_pad4 by exact Hy.
  rewrite !value_pad2 by lia.
  cbn [forallb]. rewrite !is_digit_digit_char by apply mod10.
  change (("-" =? "-")%char) with true. cbn [andb].
  replace ((1 <=? MonthFromTime now + 1) && (MonthFromTime now + 1 <=? 12)
           && (1 <=? DateFromTime now)
           && (DateFromTime now
               <=? days_in_month (YearFromTime now) (MonthFromTime now + 1)))
    with true by (symmetry; rewrite !andb_true_iff; repeat split; lia).
  replace (MonthFromTime now + 1 - 1) with (MonthFromTime now) by lia.
  rewrite MakeDay_same_month.
  replace (Day now + DateFromTime now - DateFromTime now) with (Day now) by lia.
  rewrite TimeClip_midnight; [reflexivity|].
  pose proof (YearFromDay_spec (Day now)) as S. fold (YearFromTime now) in S.
  pose proof (DayFromYear_le 0 (YearFromTime now)) as L0.
  pose proof (DayFromYear_le (YearFromTime now + 1) 10000) as L1.
  change (DayFromYear 0) with (-719528) in L0.
  change (DayFromYear 10000) with 2932897 in L1. lia.
Qed.

(** X27. The date field starts on the UTC day of the first render: [todayStr()]
    is ten characters, [YYYY-MM-DD], and read back as a date it is midnight
    UTC of the day of [now] (years 0 to 9999). *)
Theorem todayStr_round_trip (now : Z) :
  0 <= YearFromTime now <= 9999 ->
  String.length (todayStr now) = 10%nat /\
  parse_date_only (todayStr now) = Some (Int (MakeDate (Day now) 0)).
Proof. exact (todayStr_parsed now). Qed.

Lemma todayStr_round_trip_witness :
  0 <= YearFromTime (midnight 2026 11 3 + 17 * 3600000) <= 9999 /\
  todayStr (midnight 2026 11 3 + 17 * 3600000) = "2026-11-03"%string /\
  parse_date_only (todayStr (midnight 2026 11 3 + 17 * 3600000))
  = Some (Int (midnight 2026 11 3)).
Proof.
  assert (H : 0 <= YearFromTime (midnight 2026 11 3 + 17 * 3600000) <= 9999)
    by (vm_compute; split; discriminate).
  split; [exact H|]. split; [reflexivity|].
  exact (proj2 (todayStr_round_trip _ H)).
Defined.

(** X28. The first render, in an engine that reads date-only strings as
    ECMA-262 says.  At or east of Greenwich the bucket first selected is the
    one of the UTC day of [now]; west of Greenwich it is the one of the day
    before. *)
Theorem first_render_bucket (zone : Z -> Z) (DateParse : string -> number)
    (now : Z) (configured : bool) :
  (forall s n, parse_date_only s = Some n -> DateParse s = n) ->
  0 <= YearFromTime now <= 9999 ->
  let d := DateParse (Session.date (Session.init (todayStr now) configured)) in
  let off := zone (MakeDate (Day now) 0) in
  d = Int (MakeDate (Day now) 0) /\
  (0 <= off < msPerDay -> period zone d = period utc (Int now)) /\
  (- msPerDay <= off < 0 ->
   period zone d = period utc (Int (MakeDate (Day now - 1) 0))).
Proof.
  intros HP Hy d off.
  assert (E : d = Int (MakeDate (Day now) 0)).
  { unfold d. cbn [Session.init Session.date].
    apply HP. apply todayStr_parsed. exact Hy. }
  split; [exact E|]. rewrite E. split; intros Ho.
  - rewrite (period_date_east zone (Day now) Ho).
    apply period_local_day. unfold LocalTime, utc.
    rewrite !Z.add_0_r. apply Day_midnight.
  - apply (period_date_west zone (Day now) Ho).
Qed.

(** At 15:00 UTC on Monday 2 November 2026, five hours west: the date field
    reads 2026-11-02 and the bucket selected is Sunday's, week 44. *)
Lemma first_render_bucket_witness :
  let now := midnight 2026 11 2 + 15 * 3600000 in
  (forall s n, parse_date_only s = Some n -> Cases.date_only s = n) /\
  todayStr now = "2026-11-02"%string /\
  period west5 (Cases.date_only (Session.date (Session.init (todayStr now) true)))
  = Period.make (Int 44) (Int 11) (Int 2026) /\
  period utc (Int now) = Period.make (Int 45) (Int 11) (Int 2026).
Proof.
  intros now.
  assert (HP : forall s n, parse_date_only s = Some n -> Cases.date_only s = n)
    by (intros s n H; unfold Cases.date_only; now rewrite H).
  assert (Hy : 0 <= YearFromTime now <= 9999) by (vm_compute; split; discriminate).
  destruct (first_render_bucket Terms.west5 Cases.date_only now true HP Hy)
    as (_ & _ & W).
  split; [exact HP|]. split; [reflexivity|]. split; [|vm_compute; reflexivity].
  rewrite W; [vm_compute; reflexivity|].
  unfold msPerDay, Terms.west5. lia.
Defined.

End Today.

(** ** The three derived values, in closed form *)

Section ClosedForms.

Import JSDate ISO8601 Dashboard Vocabulary.




(** X15. A ranking that is produced holds the members it was given, each before
    every member with fewer placements, or as many placements and fewer
    intakes. *)
Theorem ranking_descending (l r : list Totals.t) :
  ranking l = Return r -> Permutation l r /\ StronglySorted before r.
Proof. exact (ranking_sorted l r). Qed.

Lemma ranking_descending_witness :
  ranking [Samples.memberA; Samples.memberB]
  = Return [Samples.memberB; Samples.memberA] /\
  StronglySorted before [Samples.memberB; Samples.memberA].
Proof.
  split; [reflexivity|].
  exact (proj2 (ranking_descending [Samples.memberA; Samples.memberB] _ eq_refl)).
Defined.

End ClosedForms.
